(** * PR-curve plugin: the curve pipeline of [pr_curves_plugin.py]

    A shallow embedding of [PrCurvesPlugin] and the properties its
    specification states about it.  Python values are modelled as follows:
    - [int] is [Z] (unbounded);
    - [float] is an IEEE-754 binary64 number, [SpecFloat.spec_float] with
      [prec = 53] and [emax = 1024];
    - a raised exception is the [Raise] outcome of [result];
    - a [dict] keyed by strings is a [gmap string _];
    - a list is a [list]. *)

From Stdlib Require Import ZArith List Lia String SpecFloat.
From stdpp Require Import gmap strings list fin_maps.

Local Open Scope Z_scope.

(** ** Python primitives *)

Module Py.

(** The exceptions the plugin can meet; [OtherError] stands for those
    its collaborators may raise besides. *)
Inductive exn : Type :=
| ValueError (msg : string)
| KeyError
| IndexError
| OverflowError
| ZeroDivisionError
| OtherError (name : string).

(** Outcome of evaluating an expression: a value, or a raised exception. *)
Inductive result (A : Type) : Type :=
| Ok (a : A)
| Raise (e : exn).
Arguments Ok {A} a.
Arguments Raise {A} e.

Definition bind {A B} (r : result A) (k : A -> result B) : result B :=
  match r with
  | Ok a => k a
  | Raise e => Raise e
  end.

(** [for x in l: s = body(x, s)], the first exception leaving the loop. *)
Fixpoint for_each {A S} (l : list A) (body : A -> S -> result S) (s : S) : result S :=
  match l with
  | [] => Ok s
  | x :: xs => bind (body x s) (for_each xs body)
  end.

(** [[f(x) for x in l]]: elements are evaluated left to right and the
    first exception aborts the comprehension. *)
Fixpoint list_comp {A B} (f : A -> result B) (l : list A) : result (list B) :=
  match l with
  | [] => Ok []
  | x :: xs =>
      bind (f x) (fun y =>
      bind (list_comp f xs) (fun ys =>
      Ok (y :: ys)))
  end.

(** [seq[i]] for an index [0 <= i]. *)
Definition getitem {A} (l : list A) (i : nat) : result A :=
  match l !! i with
  | Some x => Ok x
  | None => Raise IndexError
  end.

(** [range(a, b)]. *)
Definition range (a b : Z) : list Z :=
  map (fun k : nat => a + Z.of_nat k) (seq 0 (Z.to_nat (b - a))).

(** [l[:k]]: a negative [k] counts from the end. *)
Definition slice_to {A} (k : Z) (l : list A) : list A :=
  if k <? 0 then take (length l - Z.to_nat (- k))%nat l
  else take (Z.to_nat k) l.

(** *** Floats *)

Definition prec : Z := 53.
Definition emax : Z := 1024.

Abbreviation float := spec_float.

Definition fdiv : float -> float -> float := SFdiv prec emax.
Definition fltb : float -> float -> bool := SFltb.
Definition fone : float := SFone prec emax.
Definition fzero : float := S754_zero false.

(** [float(n)] for an [int]: the nearest binary64 number, ties to even;
    [OverflowError] when that is beyond the largest finite float. *)
Definition float_of_int (n : Z) : result float :=
  match binary_normalize prec emax n 0 false with
  | S754_infinity _ => Raise OverflowError
  | f => Ok f
  end.

Definition is_zero (x : float) : bool :=
  match x with S754_zero _ => true | _ => false end.

(** [x / n] for a float [x] and an [int] [n]: [n] is converted to a
    float first, and a zero divisor raises. *)
Definition float_truediv_int (x : float) (n : Z) : result float :=
  bind (float_of_int n) (fun y =>
  if is_zero y then Raise ZeroDivisionError else Ok (fdiv x y)).

(** Integer part of a finite non-zero magnitude [m * 2^e]. *)
Definition trunc_mag (m : positive) (e : Z) : Z := Z.shiftl (Z.pos m) e.

(** [int(x)] for a float: truncation towards zero; NaN and the
    infinities raise. *)
Definition int_of_float (x : float) : result Z :=
  match x with
  | S754_zero _ => Ok 0
  | S754_infinity _ => Raise OverflowError
  | S754_nan => Raise (ValueError "cannot convert float NaN to integer")
  | S754_finite s m e => Ok (cond_Zopp s (trunc_mag m e))
  end.

End Py.

Export Py.

#[global] Instance result_bind : MBind result := fun A B k r => Py.bind r k.
#[global] Instance result_ret : MRet result := @Py.Ok.

(** ** numpy arrays *)

Module Np.

(** A two-dimensional [ndarray] of floating values, as the list of its
    rows.  The values are kept as [spec_float] whatever the dtype, so
    [tolist()] is the identity on them. *)
Definition ndarray : Type := list (list float).

(** The conversion of a float to a 64-bit integer is a C cast: defined
    (truncation) when the integer part fits, and left to the hardware
    otherwise.  [cast_unrepresentable] is what the hardware answers
    there. *)
Class Platform : Type := { cast_unrepresentable : float -> Z }.

Definition int64_min : Z := - 2 ^ 63.
Definition int64_max : Z := 2 ^ 63 - 1.

(** Wrap-around of 64-bit two's complement arithmetic. *)
Definition int64_wrap (z : Z) : Z := (z + 2 ^ 63) mod 2 ^ 64 - 2 ^ 63.

(** One element of [a.astype(int)]. *)
Definition astype_int `{Platform} (x : float) : Z :=
  match int_of_float x with
  | Ok z => if (int64_min <=? z) && (z <=? int64_max) then z
            else cast_unrepresentable x
  | Raise _ => cast_unrepresentable x
  end.

(** [a.sum(axis=0)] for an integer array of two rows. *)
Definition sum_axis0 (r0 r1 : list Z) : list Z :=
  zip_with (fun a b => int64_wrap (a + b)) r0 r1.

End Np.

Export Np.

(** ** The plugin *)

Module PrCurvesPlugin.

(** *** Collaborators of the plugin that live in other modules *)

Record PrCurvePluginData : Type := {
  version : Z;
  num_thresholds : Z;
}.

Record SummaryMetadata_t : Type := {
  display_name : string;
  summary_description : string;
  plugin_data_content : string;
}.

(** A Python object passed where [Respond] expects the content type. *)
Inductive PyObj : Type :=
| PyStr (s : string)
| PyInt (n : Z).

Record Request : Type := {
  args : list (string * string);
}.

(** [request.args.getlist(key)] *)
Definition getlist (request : Request) (key : string) : list string :=
  snd <$> filter (fun kv => fst kv = key) (args request).

(** [request.args.get(key)] *)
Definition get (request : Request) (key : string) : option string :=
  head (getlist request key).

(** The functions of [tensor_util], [metadata], [plugin_util] and the
    builtin [repr], which the plugin calls and does not define. *)
Class Host : Type := {
  TensorProto : Type;
  make_ndarray : TensorProto -> result ndarray;
  parse_plugin_metadata : string -> result PrCurvePluginData;
  markdown_to_safe_html : string -> string;
  repr : string -> string;
  PLUGIN_NAME : string;
}.

(** A [TensorEvent]; its [step] and [wall_time] are prefixed, the names
    being those of the fields of [Entry] too. *)
Record TensorEvent `{Host} : Type := {
  event_step : Z;
  event_wall_time : float;
  tensor_proto : TensorProto;
}.

(** [self._multiplexer]: the store of runs, tags and tensors.  [Tensors]
    and [SummaryMetadata] raise [KeyError] for a run or tag they do not
    have. *)
Class Multiplexer `{Host} : Type := {
  Tensors : string -> string -> result (list TensorEvent);
  SummaryMetadata : string -> string -> result SummaryMetadata_t;
  Runs : list string;
  PluginRunToTagToContent : string -> gmap string (gmap string string);
}.

(** *** Row layout of the tensor *)

(** Modelled from the spec: the constants of [metadata], which is not
    among the sources; the specification fixes the rows, by index, as
    true positives, false positives, true negatives, false negatives,
    precision, recall. *)
Definition TRUE_POSITIVES_INDEX : nat := 0.
Definition FALSE_POSITIVES_INDEX : nat := 1.
Definition TRUE_NEGATIVES_INDEX : nat := 2.
Definition FALSE_NEGATIVES_INDEX : nat := 3.
Definition PRECISION_INDEX : nat := 4.
Definition RECALL_INDEX : nat := 5.

(** *** Curve entries *)

(** The dictionary built by [_make_pr_entry], one field per key. *)
Record Entry : Type := {
  wall_time : float;
  step : Z;
  precision : list float;
  recall : list float;
  true_positives : list Z;
  false_positives : list Z;
  true_negatives : list Z;
  false_negatives : list Z;
  thresholds : list float;
}.

(** [[float(v) / num_thresholds for v in range(1, num_thresholds + 1)]] *)
Definition _compute_thresholds (num_thresholds : Z) : result (list float) :=
  list_comp
    (fun v => x ← float_of_int v; float_truediv_int x num_thresholds)
    (range 1 (num_thresholds + 1)).

(** [data_array[[tp_index, fp_index], :].astype(int).sum(axis=0)] *)
Definition positives `{Platform} (data_array : ndarray) : result (list Z) :=
  tp ← getitem data_array TRUE_POSITIVES_INDEX;
  fp ← getitem data_array FALSE_POSITIVES_INDEX;
  mret (sum_axis0 (astype_int <$> tp) (astype_int <$> fp)).

(** The loop
    [while end_index_inclusive > 0 and positives[end_index_inclusive] == 0:
         end_index_inclusive -= 1]
    entered with [end_index_inclusive = i]; the recursion is on the loop
    variable, which each iteration decreases by one. *)
Fixpoint trim_loop (positives : list Z) (i : nat) : result Z :=
  match i with
  | O => Ok 0
  | S i' =>
      p ← getitem positives i;
      if p =? 0 then trim_loop positives i' else Ok (Z.of_nat i)
  end.

(** The lines from [end_index_inclusive = len(positives) - 1] to
    [end_index = end_index_inclusive + 1]. *)
Definition trim_end_index (positives : list Z) : result Z :=
  let end_index_inclusive := Z.of_nat (length positives) - 1 in
  end_index_inclusive ←
    (if end_index_inclusive >? 0
     then trim_loop positives (Z.to_nat end_index_inclusive)
     else Ok end_index_inclusive);
  mret (end_index_inclusive + 1).

Definition _make_pr_entry `{Platform}
    (step : Z) (wall_time : float) (data_array : ndarray) (thresholds : list float)
    : result Entry :=
  tp_row ← getitem data_array TRUE_POSITIVES_INDEX;
  true_positives ← list_comp int_of_float tp_row;
  fp_row ← getitem data_array FALSE_POSITIVES_INDEX;
  false_positives ← list_comp int_of_float fp_row;
  positives ← positives data_array;
  end_index ← trim_end_index positives;
  precision_row ← getitem data_array PRECISION_INDEX;
  recall_row ← getitem data_array RECALL_INDEX;
  tn_row ← getitem data_array TRUE_NEGATIVES_INDEX;
  true_negatives ← list_comp int_of_float (slice_to end_index tn_row);
  fn_row ← getitem data_array FALSE_NEGATIVES_INDEX;
  false_negatives ← list_comp int_of_float (slice_to end_index fn_row);
  mret {|
    wall_time := wall_time;
    step := step;
    precision := slice_to end_index precision_row;
    recall := slice_to end_index recall_row;
    true_positives := slice_to end_index true_positives;
    false_positives := slice_to end_index false_positives;
    true_negatives := true_negatives;
    false_negatives := false_negatives;
    thresholds := slice_to end_index thresholds;
  |}.

Definition _process_tensor_event `{Platform, Host}
    (event : TensorEvent) (thresholds : list float) : result Entry :=
  data_array ← make_ndarray (tensor_proto event);
  _make_pr_entry (event_step event) (event_wall_time event) data_array thresholds.

(** ["No PR curves could be found for run %r and tag %r" % (run, tag)] *)
Definition no_curves_message `{Host} (run tag : string) : string :=
  ("No PR curves could be found for run " ++ repr run ++ " and tag " ++ repr tag)%string.

(** The body of the loop of [pr_curves_impl] for one run, up to the
    list stored under that run. *)
Definition run_entries `{Platform, Host, !Multiplexer} (run tag : string)
    : result (list Entry) :=
  tensor_events ←
    match Tensors run tag with
    | Raise KeyError => Raise (ValueError (no_curves_message run tag))
    | r => r
    end;
  summary_metadata ← SummaryMetadata run tag;
  pr_curve_data ← parse_plugin_metadata (plugin_data_content summary_metadata);
  thresholds ← _compute_thresholds (num_thresholds pr_curve_data);
  list_comp (fun e => _process_tensor_event e thresholds) tensor_events.

Definition pr_curves_impl `{Platform, Host, !Multiplexer} (runs : list string) (tag : string)
    : result (gmap string (list Entry)) :=
  for_each runs
    (fun run response_mapping =>
       entries ← run_entries run tag;
       mret (<[run := entries]> response_mapping))
    ∅.

(** *** Tags *)

Record TagInfo : Type := {
  displayName : string;
  description : string;
}.

(** [{run: {} for run in runs}] *)
Definition empty_tags (runs : list string) : gmap string (gmap string TagInfo) :=
  foldl (fun result run => <[run := ∅]> result) ∅ runs.

(** The dictionary literal stored under a tag. *)
Definition tag_entry `{Host} (summary_metadata : SummaryMetadata_t) : TagInfo :=
  {| displayName := display_name summary_metadata;
     description := markdown_to_safe_html (summary_description summary_metadata) |}.

(** The body of the inner loop, [for (tag, _) in six.iteritems(tag_to_content)]. *)
Definition set_tag `{Host, !Multiplexer} (run : string) (item : string * string)
    (result : gmap string (gmap string TagInfo)) : Py.result (gmap string (gmap string TagInfo)) :=
  let '(tag, _) := item in
  summary_metadata ← SummaryMetadata run tag;
  match result !! run with
  | None => Raise KeyError
  | Some tags => mret (<[run := <[tag := tag_entry summary_metadata]> tags]> result)
  end.

(** The body of the outer loop, [for (run, tag_to_content) in six.iteritems(mapping)]. *)
Definition set_tags `{Host, !Multiplexer} (item : string * gmap string string)
    (result : gmap string (gmap string TagInfo)) : Py.result (gmap string (gmap string TagInfo)) :=
  let '(run, tag_to_content) := item in
  for_each (map_to_list tag_to_content) (set_tag run) result.

Definition tags_impl `{Host, !Multiplexer} : Py.result (gmap string (gmap string TagInfo)) :=
  let runs := Runs in
  let result := empty_tags runs in
  let mapping := PluginRunToTagToContent PLUGIN_NAME in
  for_each (map_to_list mapping) set_tags result.

(** The entry the catalogue holds for a tag whose metadata the store has. *)
Definition tag_info `{Host, !Multiplexer} (run tag : string) : option TagInfo :=
  match SummaryMetadata run tag with
  | Ok summary_metadata => Some (tag_entry summary_metadata)
  | Raise _ => None
  end.

(** The pair [(run, tag)] carries data of the plugin. *)
Definition has_tag (mapping : gmap string (gmap string string)) (run tag : string) : Prop :=
  exists tag_to_content content,
    mapping !! run = Some tag_to_content /\ tag_to_content !! tag = Some content.

(** [(run, tag)] is listed by the items [L] of such a mapping. *)
Definition listed (L : list (string * gmap string string)) (run tag : string) : Prop :=
  Exists (fun item => item.1 = run /\ is_Some (item.2 !! tag)) L.

(** *** Routes *)

Inductive Body : Type :=
| Text (s : string)
| Json (mapping : gmap string (list Entry)).

(** [http_util.Respond(request, content, content_type, code)], with
    [code = None] for a call that leaves the code to its default.  The
    function is not among the sources; the order of its parameters is
    that of the call in the [except] branch of [pr_curves_route]. *)
Class HttpUtil : Type := {
  Response : Type;
  Respond : Request -> Body -> PyObj -> option Z -> Response;
}.

Definition pr_curves_route `{Platform, Host, !Multiplexer, HttpUtil} (request : Request)
    : result Response :=
  let runs := getlist request "run" in
  if bool_decide (runs = []) then
    mret (Respond request (Text "No runs provided when fetching PR curve data")
            (PyInt 400) None)
  else
    match get request "tag" with
    | None | Some EmptyString =>
        mret (Respond request (Text "No tag provided when fetching PR curve data")
                (PyInt 400) None)
    | Some tag =>
        match pr_curves_impl runs tag with
        | Ok mapping => mret (Respond request (Json mapping) (PyStr "application/json") None)
        | Raise (ValueError msg) =>
            mret (Respond request (Text msg) (PyStr "text/plain") (Some 400))
        | Raise e => Raise e
        end
    end.

End PrCurvesPlugin.

Export PrCurvesPlugin.

(** ** Well-formed tensors

    The invariants of the data model that the properties below rely on,
    as executable predicates. *)

Module Tensor.

(** Six rows of [width] columns each. *)
Definition has_shape (data_array : ndarray) (width : nat) : bool :=
  (length data_array =? 6)%nat
  && forallb (fun row => (length row =? width)%nat) data_array.

Definition is_finite (x : float) : bool :=
  match x with
  | S754_zero _ | S754_finite _ _ _ => true
  | S754_infinity _ | S754_nan => false
  end.

(** The four count rows hold no NaN and no infinity. *)
Definition finite_counts (data_array : ndarray) : bool :=
  forallb (forallb is_finite) (take 4 data_array).

(** A count: finite, non-negative, and small enough for the sum of two
    counts to fit a 64-bit integer. *)
Definition is_count (x : float) : bool :=
  match int_of_float x with
  | Ok z => (0 <=? z) && (z <? 2 ^ 62)
  | Raise _ => false
  end.

(** A confusion-matrix tensor of the given width: six equal rows, the
    first four of them counts. *)
Definition confusion_matrix_tensor (data_array : ndarray) (width : nat) : bool :=
  has_shape data_array width
  && forallb (forallb is_count) (take 4 data_array).

(** [0 < x < 1], on the value [m * 2^e] of [x]. *)
Definition strictly_between_0_and_1 (x : float) : bool :=
  match x with
  | S754_finite false m e => Z.pos m <? 2 ^ (- e)
  | _ => false
  end.

(** The value of [x], that is [(-1)^s * m * 2^e], is the integer [n]. *)
Definition has_integer_value (x : float) (n : Z) : bool :=
  match x with
  | S754_zero _ => n =? 0
  | S754_finite s m e =>
      if 0 <=? e then n =? cond_Zopp s (Z.pos m * 2 ^ e)
      else n * 2 ^ (- e) =? cond_Zopp s (Z.pos m)
  | S754_infinity _ | S754_nan => false
  end.

(** The row stores the integers [counts] exactly, one per column. *)
Fixpoint stores_counts (row : list float) (counts : list Z) : bool :=
  match row, counts with
  | [], [] => true
  | x :: row', n :: counts' => has_integer_value x n && stores_counts row' counts'
  | _, _ => false
  end.

End Tensor.

Export Tensor.

(** ** Sample data *)

Module Samples.

(** The hardware of x86-64, which answers the most negative integer. *)
Definition x86_64 : Platform := {| cast_unrepresentable := fun _ => int64_min |}.

(** The float written [n] in decimal. *)
Definition of_Z (n : Z) : float := binary_normalize prec emax n 0 false.

(** The float nearest to the decimal fraction [n / d]. *)
Definition decimal (n d : Z) : float := fdiv (of_Z n) (of_Z d).

Definition nan : float := S754_nan.

(** The tensor of the end-to-end example of the specification. *)
Definition example_tensor : ndarray :=
  [ [of_Z 5; of_Z 3; of_Z 0];
    [of_Z 2; of_Z 1; of_Z 0];
    [of_Z 0; of_Z 1; of_Z 2];
    [of_Z 0; of_Z 0; of_Z 1];
    [decimal 71 100; decimal 75 100; nan];
    [of_Z 1; of_Z 1; of_Z 0] ].

Definition example_thresholds : list float :=
  [decimal 33 100; decimal 67 100; of_Z 1].

(** A tensor whose last column holds half a true positive and half a
    false positive. *)
Definition fractional_tensor : ndarray :=
  [ [of_Z 4; decimal 1 2];
    [of_Z 1; decimal 1 2];
    [of_Z 0; of_Z 3];
    [of_Z 0; of_Z 1];
    [decimal 8 10; decimal 1 2];
    [of_Z 1; decimal 1 3] ].

(** A host whose tensor protos are already arrays, and whose metadata
    always asks for three thresholds. *)
Definition host : Host := {|
  TensorProto := ndarray;
  make_ndarray := Ok;
  parse_plugin_metadata := fun _ => Ok {| version := 0; num_thresholds := 3 |};
  markdown_to_safe_html := fun s => ("<p>" ++ s ++ "</p>")%string;
  repr := fun s => ("'" ++ s ++ "'")%string;
  PLUGIN_NAME := "pr_curves";
|}.

Definition example_event : @TensorEvent host :=
  @Build_TensorEvent host 7 (of_Z 1) example_tensor.

Definition example_metadata : SummaryMetadata_t := {|
  display_name := "curve";
  summary_description := "a curve";
  plugin_data_content := "content";
|}.

(** A store with two runs: [A] has one event under the tag [t], and [B]
    has no data. *)
Definition store : @Multiplexer host := {|
  Tensors := fun run tag =>
    if decide (run = "A"%string /\ tag = "t"%string) then Ok [example_event]
    else Raise KeyError;
  SummaryMetadata := fun run tag =>
    if decide (run = "A"%string /\ tag = "t"%string) then Ok example_metadata
    else Raise KeyError;
  Runs := ["A"%string; "B"%string];
  PluginRunToTagToContent := fun name =>
    if decide (name = "pr_curves"%string)
    then {[ "A"%string := {[ "t"%string := "content"%string ]} ]}
    else ∅;
|}.

(** An [http_util] that records the arguments [Respond] was called with. *)
Definition http : HttpUtil := {|
  Response := Request * Body * PyObj * option Z;
  Respond := fun request content content_type code => (request, content, content_type, code);
|}.

(** A request for a tag, with no [run] parameter. *)
Definition request_without_run : Request := {| args := [("tag", "t")]%string |}.

End Samples.

(** ** Activity of the plugin *)

Module Activity.

(** [is_active], with [self._multiplexer] possibly [None].  The truth value
    of a dictionary is that of its length, and [any] looks for a true
    value among [six.itervalues(all_runs)]. *)
Definition is_active `{Host} (multiplexer : option Multiplexer) : bool :=
  match multiplexer with
  | None => false
  | Some m =>
      let all_runs := @PluginRunToTagToContent _ m PLUGIN_NAME in
      existsb (fun tag_to_content : gmap string string => negb (size tag_to_content =? 0)%nat)
        (snd <$> map_to_list all_runs)
  end.

End Activity.

Export Activity.

(** ** Further sample data *)

Module MoreSamples.
Import Samples.

Definition infinity : float := S754_infinity false.

(** The example tensor with an undefined true negative and an infinite
    false negative in its last column. *)
Definition tensor_with_bad_tail : ndarray :=
  [ [of_Z 5; of_Z 3; of_Z 0];
    [of_Z 2; of_Z 1; of_Z 0];
    [of_Z 0; of_Z 1; nan];
    [of_Z 0; of_Z 0; infinity];
    [decimal 71 100; decimal 75 100; nan];
    [of_Z 1; of_Z 1; of_Z 0] ].

(** The example tensor with an undefined true positive in its last
    column. *)
Definition tensor_with_nan_count : ndarray :=
  [ [of_Z 5; of_Z 3; nan];
    [of_Z 2; of_Z 1; of_Z 0];
    [of_Z 0; of_Z 1; of_Z 2];
    [of_Z 0; of_Z 0; of_Z 1];
    [decimal 71 100; decimal 75 100; nan];
    [of_Z 1; of_Z 1; of_Z 0] ].

(** The example tensor without its recall row. *)
Definition tensor_of_five_rows : ndarray := take 5 example_tensor.

(** A tensor of width zero. *)
Definition empty_tensor : ndarray := [ []; []; []; []; []; [] ].

(** The store of the samples, its summary metadata lost. *)
Definition store_without_metadata : @Multiplexer host := {|
  Tensors := @Tensors host store;
  SummaryMetadata := fun _ _ => Raise KeyError;
  Runs := @Runs host store;
  PluginRunToTagToContent := @PluginRunToTagToContent host store;
|}.

(** The store of the samples, the tensor of its event holding a NaN
    count. *)
Definition store_with_nan_count : @Multiplexer host := {|
  Tensors := fun run tag =>
    if decide (run = "A"%string /\ tag = "t"%string)
    then Ok [@Build_TensorEvent host 7 (of_Z 1) tensor_with_nan_count]
    else Raise KeyError;
  SummaryMetadata := @SummaryMetadata host store;
  Runs := @Runs host store;
  PluginRunToTagToContent := @PluginRunToTagToContent host store;
|}.

(** A store whose runs carry no tag of the plugin. *)
Definition store_without_tags : @Multiplexer host := {|
  Tensors := fun _ _ => Raise KeyError;
  SummaryMetadata := fun _ _ => Raise KeyError;
  Runs := ["A"%string; "B"%string];
  PluginRunToTagToContent := fun _ => {[ "A"%string := ∅ ]};
|}.

(** A store that lists a tag for the run [C], which [Runs] does not
    know. *)
Definition store_with_unknown_run : @Multiplexer host := {|
  Tensors := @Tensors host store;
  SummaryMetadata := fun _ _ => Ok example_metadata;
  Runs := @Runs host store;
  PluginRunToTagToContent := fun _ => {[ "C"%string := {[ "t"%string := "content"%string ]} ]};
|}.

(** The entry built from the example tensor at step 7. *)
Definition example_entry : Entry := {|
  wall_time := fone;
  step := 7;
  precision := [decimal 71 100; decimal 75 100];
  recall := [of_Z 1; of_Z 1];
  true_positives := [5; 3];
  false_positives := [2; 1];
  true_negatives := [0; 1];
  false_negatives := [0; 0];
  thresholds := [decimal 33 100; decimal 67 100];
|}.

(** The entry built from the example tensor and a single threshold. *)
Definition example_entry_one_threshold : Entry := {|
  wall_time := fone;
  step := 7;
  precision := [decimal 71 100; decimal 75 100];
  recall := [of_Z 1; of_Z 1];
  true_positives := [5; 3];
  false_positives := [2; 1];
  true_negatives := [0; 1];
  false_negatives := [0; 0];
  thresholds := [decimal 1 2];
|}.

Definition request_A : Request := {| args := [("run", "A"); ("tag", "t")]%string |}.
Definition request_A_B : Request :=
  {| args := [("run", "A"); ("run", "B"); ("tag", "t")]%string |}.
Definition request_A_A : Request :=
  {| args := [("run", "A"); ("run", "A"); ("tag", "t")]%string |}.
Definition request_without_tag : Request := {| args := [("run", "A")]%string |}.

End MoreSamples.

(** ** Rounding to binary64, as integer arithmetic

    The notions used to state what [SFdiv] computes on normal numbers. *)

Module Rounding.

(** [l] locates the fraction [r / b] of [0, 1) with respect to [1/2]. *)
Definition loc_of_fraction (l : location) (r b : Z) : Prop :=
  match l with
  | loc_Exact => r = 0
  | loc_Inexact Lt => 0 < r /\ 2 * r < b
  | loc_Inexact Eq => 2 * r = b
  | loc_Inexact Gt => b < 2 * r
  end.

(** A mantissa that rounding carried to [2^53] is brought back to 53 bits. *)
Definition renorm (m1 e : Z) : Z * Z :=
  if m1 =? 2 ^ 53 then (2 ^ 52, e + 1) else (m1, e).

(** The mantissa and exponent produced by rounding [q * 2^e] with location
    [l], for [q] of 53 bits and for [q] of 54 bits. *)
Definition round53 (q : Z) (e : Z) (l : location) : Z * Z :=
  renorm (round_nearest_even q l) e.

Definition round54 (q : Z) (e : Z) (l : location) : Z * Z :=
  let mrs := shr_1 (shr_record_of_loc q l) in
  renorm (round_nearest_even (shr_m mrs) (loc_of_shr_record mrs)) (e + 1).

(** [(M, E)] is [X / b * 2^e] rounded to 53 bits: [E] is [e] plus a
    shift of at most two, the error is at most half a unit in the last
    place, and the result is exact when [2 * b] divides [X]. *)
Record rounded (e b X : Z) (ME : Z * Z) : Prop := {
  rounded_mant : 2 ^ 52 <= fst ME < 2 ^ 53;
  rounded_shift : 0 <= snd ME - e <= 2;
  rounded_err : 2 * Z.abs (fst ME * 2 ^ (snd ME - e) * b - X) <= b * 2 ^ (snd ME - e);
  rounded_exact : (2 * b | X) -> fst ME * 2 ^ (snd ME - e) * b = X;
}.

(** [M * 2^E] is [v / n] correctly rounded, for [float(n) = b * 2^en];
    all quantities are scaled by [2^(en + 105)] to stay in [Z]. *)
Record quotient (n : Z) (b : positive) (en : Z) (v : Z) (M : positive) (E : Z) : Prop := {
  quot_digits : Z.pos (digits2_pos M) = 53;
  quot_scale : 0 <= E + (en + 105);
  quot_err : 2 * Z.abs (Z.pos M * 2 ^ (E + (en + 105)) * Z.pos b - v * 2 ^ 105)
             <= Z.pos b * 2 ^ (E + (en + 105));
  quot_exact : v = n \/ n = 2 ^ 53 ->
               Z.pos M * 2 ^ (E + (en + 105)) * Z.pos b = v * 2 ^ 105;
}.

End Rounding.

Export Rounding.

(** * Properties

    ** Binary64 division and conversion *)

Module Binary64.

Lemma digits2_pos_size (p : positive) : digits2_pos p = Pos.size p.
Proof. induction p; simpl; congruence. Qed.

Lemma digits2_bounds (p : positive) :
  2 ^ (Z.pos (digits2_pos p) - 1) <= Z.pos p < 2 ^ Z.pos (digits2_pos p).
Proof.
  induction p as [p IH|p IH|]; cbn [digits2_pos].
  - rewrite Pos2Z.inj_succ. replace (Z.succ (Z.pos (digits2_pos p)) - 1) with (Z.succ (Z.pos (digits2_pos p) - 1)) by lia.
    rewrite !Z.pow_succ_r by lia. lia.
  - rewrite Pos2Z.inj_succ. replace (Z.succ (Z.pos (digits2_pos p)) - 1) with (Z.succ (Z.pos (digits2_pos p) - 1)) by lia.
    rewrite !Z.pow_succ_r by lia. lia.
  - cbn. lia.
Qed.

Lemma digits2_unique (p : positive) (d : Z) :
  2 ^ (d - 1) <= Z.pos p < 2 ^ d -> Z.pos (digits2_pos p) = d.
Proof.
  intros [Hlo Hhi]. pose proof (digits2_bounds p) as [Blo Bhi].
  assert (0 < d).
  { destruct (Z.lt_trichotomy d 0) as [Hd|[Hd|Hd]]; [|subst d; simpl in Hhi; lia|done].
    rewrite Z.pow_neg_r in Hhi by lia. lia. }
  destruct (Z.lt_trichotomy (Z.pos (digits2_pos p)) d) as [Hc|[Hc|Hc]]; [|done|].
  - assert (2 ^ Z.pos (digits2_pos p) <= 2 ^ (d - 1)) by (apply Z.pow_le_mono_r; lia). lia.
  - assert (2 ^ d <= 2 ^ (Z.pos (digits2_pos p) - 1)) by (apply Z.pow_le_mono_r; lia). lia.
Qed.

Lemma fexp_normal (d e : Z) : -1074 <= d + e - 53 -> fexp prec emax (d + e) = d + e - 53.
Proof. unfold fexp, emin, prec, emax. lia. Qed.

Lemma loc_of_shr_record_of_loc m l : loc_of_shr_record (shr_record_of_loc m l) = l.
Proof. destruct l as [|[]]; reflexivity. Qed.

Lemma shr_fexp_noshift (m : positive) (e : Z) (l : location) :
  Z.pos (digits2_pos m) = 53 -> -1074 <= e ->
  shr_fexp prec emax (Z.pos m) e l = (shr_record_of_loc (Z.pos m) l, e).
Proof.
  intros Hd He. unfold shr_fexp. cbn [Zdigits2]. rewrite Hd, fexp_normal by lia.
  replace (53 + e - 53 - e) with 0 by lia. reflexivity.
Qed.

Lemma shr_fexp_shift1 (m : positive) (e : Z) (l : location) :
  Z.pos (digits2_pos m) = 54 -> -1074 <= e ->
  shr_fexp prec emax (Z.pos m) e l = (shr_1 (shr_record_of_loc (Z.pos m) l), e + 1).
Proof.
  intros Hd He. unfold shr_fexp. cbn [Zdigits2]. rewrite Hd, fexp_normal by lia.
  replace (54 + e - 53 - e) with 1 by lia. reflexivity.
Qed.

(** Rounding a 53-bit integer mantissa leaves it alone. *)
Lemma binary_round_aux_exact53 (s : bool) (m : positive) (e : Z) :
  Z.pos (digits2_pos m) = 53 -> -1074 <= e <= 971 ->
  binary_round_aux prec emax s (Z.pos m) e loc_Exact = S754_finite s m e.
Proof.
  intros Hd He. unfold binary_round_aux.
  rewrite shr_fexp_noshift by lia. cbn [shr_record_of_loc shr_m loc_of_shr_record round_nearest_even].
  rewrite shr_fexp_noshift by lia. cbn [shr_record_of_loc shr_m].
  unfold prec, emax. destruct (Z.leb_spec e (1024 - 53)); [done|lia].
Qed.

Lemma round_nearest_even_cases q l :
  round_nearest_even q l = q \/ round_nearest_even q l = q + 1.
Proof. destruct l as [|[]]; cbn; try destruct (Z.even q); auto. Qed.

Lemma binary_round_aux_renorm (s : bool) (m1 e : Z) :
  2 ^ 52 <= m1 <= 2 ^ 53 -> -1074 <= e <= 970 ->
  (let '(mrs, e') := shr_fexp prec emax m1 e loc_Exact in
   match shr_m mrs with
   | Z0 => S754_zero s
   | Z.pos m => if e' <=? emax - prec then S754_finite s m e' else S754_infinity s
   | Z.neg _ => S754_nan
   end) = S754_finite s (Z.to_pos (fst (renorm m1 e))) (snd (renorm m1 e)).
Proof.
  intros Hm He. unfold renorm. destruct (Z.eqb_spec m1 (2 ^ 53)) as [->|Hne].
  - vm_compute (2 ^ 53). rewrite shr_fexp_shift1 by (done || lia).
    cbn [shr_record_of_loc shr_1 shr_m fst snd]. unfold prec, emax.
    destruct (Z.leb_spec (e + 1) (1024 - 53)); [done|lia].
  - destruct m1 as [|m|m]; try lia.
    rewrite shr_fexp_noshift; [|apply digits2_unique; lia|lia].
    cbn [shr_record_of_loc shr_m fst snd]. unfold prec, emax. rewrite Pos2Z.id.
    destruct (Z.leb_spec e (1024 - 53)); [done|lia].
Qed.

Lemma binary_round_aux_53 (s : bool) (q : positive) (e : Z) (l : location) :
  Z.pos (digits2_pos q) = 53 -> -1074 <= e <= 970 ->
  binary_round_aux prec emax s (Z.pos q) e l =
  S754_finite s (Z.to_pos (fst (round53 (Z.pos q) e l))) (snd (round53 (Z.pos q) e l)).
Proof.
  intros Hd He. unfold binary_round_aux, round53.
  rewrite shr_fexp_noshift by lia. rewrite loc_of_shr_record_of_loc.
  replace (shr_m (shr_record_of_loc (Z.pos q) l)) with (Z.pos q) by (destruct l as [|[]]; reflexivity).
  apply binary_round_aux_renorm; [|lia].
  pose proof (digits2_bounds q) as Hb. rewrite Hd in Hb. simpl (53 - 1) in Hb.
  destruct (round_nearest_even_cases (Z.pos q) l) as [-> | ->]; lia.
Qed.

Lemma shr_1_m (m : Z) r s : 0 <= m -> shr_m (shr_1 (Build_shr_record m r s)) = m / 2.
Proof.
  intros Hm. destruct m as [|[p|p|]|]; try lia; cbn [shr_1 shr_m].
  - reflexivity.
  - apply Z.div_unique with 1; lia.
  - apply Z.div_unique with 0; lia.
  - reflexivity.
Qed.

Lemma shr_record_of_loc_m m l : shr_m (shr_record_of_loc m l) = m.
Proof. destruct l as [|[]]; reflexivity. Qed.

Lemma binary_round_aux_54 (s : bool) (q : positive) (e : Z) (l : location) :
  Z.pos (digits2_pos q) = 54 -> -1074 <= e <= 969 ->
  binary_round_aux prec emax s (Z.pos q) e l =
  S754_finite s (Z.to_pos (fst (round54 (Z.pos q) e l))) (snd (round54 (Z.pos q) e l)).
Proof.
  intros Hd He. unfold binary_round_aux, round54.
  rewrite shr_fexp_shift1 by lia.
  apply binary_round_aux_renorm; [|lia].
  pose proof (digits2_bounds q) as Hb. rewrite Hd in Hb. simpl (54 - 1) in Hb.
  assert (Hm : shr_m (shr_1 (shr_record_of_loc (Z.pos q) l)) = Z.pos q / 2).
  { destruct l as [|[]]; cbn [shr_record_of_loc]; apply shr_1_m; lia. }
  assert (2 ^ 52 <= Z.pos q / 2 < 2 ^ 53).
  { split; [apply Z.div_le_lower_bound; lia|apply Z.div_lt_upper_bound; lia]. }
  destruct (round_nearest_even_cases (shr_m (shr_1 (shr_record_of_loc (Z.pos q) l)))
              (loc_of_shr_record (shr_1 (shr_record_of_loc (Z.pos q) l)))) as [-> | ->];
    rewrite Hm; lia.
Qed.

Lemma new_location_fraction (b r : Z) :
  0 <= r < b -> loc_of_fraction (new_location b r) r b.
Proof.
  intros Hr. unfold new_location, new_location_even, new_location_odd.
  destruct (Z.even b) eqn:Hev; destruct (Z.eqb_spec r 0) as [->|Hr0]; try reflexivity.
  - destruct (Z.compare_spec (2 * r) b); cbn; lia.
  - assert (Hodd : Z.odd b = true) by (rewrite <- Z.negb_even, Hev; done).
    apply Z.odd_spec in Hodd as [k Hk].
    destruct (Z.compare_spec (2 * r + 1) b); cbn; lia.
Qed.

Lemma shr_1_spec (mrs : shr_record) :
  0 <= shr_m mrs ->
  shr_1 mrs = Build_shr_record (shr_m mrs / 2) (Z.odd (shr_m mrs)) (shr_r mrs || shr_s mrs).
Proof.
  destruct mrs as [m r s]. cbn [shr_m shr_r shr_s]. intros Hm.
  destruct m as [|[p|p|]|]; try lia; cbn [shr_1]; f_equal.
  - apply Z.div_unique with 1; lia.
  - apply Z.div_unique with 0; lia.
Qed.

Lemma divide_2b_remainder (q r b X : Z) :
  0 <= r < b -> X = q * b + r -> (2 * b | X) -> r = 0 /\ Z.odd q = false.
Proof.
  intros Hr -> [k Hk]. assert (Hq : q = 2 * k) by nia. subst q.
  split; [nia|]. rewrite Z.odd_mul. reflexivity.
Qed.

Lemma loc_of_fraction_0 (l : location) (b : Z) :
  0 < b -> loc_of_fraction l 0 b -> l = loc_Exact.
Proof. destruct l as [|[]]; cbn; intros; (done || lia). Qed.

Lemma renorm_cases m1 e :
  2 ^ 52 <= m1 <= 2 ^ 53 ->
  exists M t, renorm m1 e = (M, e + t) /\ 0 <= t <= 1 /\ 2 ^ 52 <= M < 2 ^ 53 /\ M * 2 ^ t = m1.
Proof.
  intros Hm. unfold renorm. destruct (Z.eqb_spec m1 (2 ^ 53)) as [->|Hne].
  - exists (2 ^ 52), 1. repeat split; try lia.
  - exists m1, 0. rewrite Z.add_0_r. repeat split; try lia.
Qed.

Lemma round53_rounded (q e r b : Z) (l : location) :
  2 ^ 52 <= q < 2 ^ 53 -> 0 <= r < b -> loc_of_fraction l r b ->
  rounded e b (q * b + r) (round53 q e l).
Proof.
  intros Hq Hr Hl. unfold round53.
  assert (Hm1 : 2 ^ 52 <= round_nearest_even q l <= 2 ^ 53)
    by (destruct (round_nearest_even_cases q l) as [-> | ->]; lia).
  destruct (renorm_cases _ e Hm1) as (M & t & -> & Ht & HM & HMt).
  assert (Herr : 2 * Z.abs (round_nearest_even q l * b - (q * b + r)) <= b).
  { destruct l as [|[]]; cbn in Hl |- *; try destruct (Z.even q); lia. }
  split; cbn [fst snd]; try lia.
  - replace (e + t - e) with t by lia. rewrite HMt.
    assert (1 <= 2 ^ t) by (apply (Z.pow_le_mono_r 2 0 t); lia). nia.
  - intros Hdiv. replace (e + t - e) with t by lia. rewrite HMt.
    destruct (divide_2b_remainder q r b _ Hr eq_refl Hdiv) as [-> _].
    assert (l = loc_Exact) as -> by (apply (loc_of_fraction_0 l b); (done || lia)). cbn. ring.
Qed.

Lemma round54_rounded (q e r b : Z) (l : location) :
  2 ^ 53 <= q < 2 ^ 54 -> 0 <= r < b -> loc_of_fraction l r b ->
  rounded e b (q * b + r) (round54 q e l).
Proof.
  intros Hq Hr Hl. unfold round54.
  set (mrs := shr_1 (shr_record_of_loc q l)).
  assert (Hm : shr_m mrs = q / 2).
  { subst mrs. destruct l as [|[]]; cbn [shr_record_of_loc]; apply shr_1_m; lia. }
  assert (Hq2 : 2 ^ 52 <= q / 2 < 2 ^ 53).
  { split; [apply Z.div_le_lower_bound; lia|apply Z.div_lt_upper_bound; lia]. }
  assert (Hm1 : 2 ^ 52 <= round_nearest_even (shr_m mrs) (loc_of_shr_record mrs) <= 2 ^ 53).
  { destruct (round_nearest_even_cases (shr_m mrs) (loc_of_shr_record mrs)) as [-> | ->]; lia. }
  destruct (renorm_cases _ (e + 1) Hm1) as (M & t & -> & Ht & HM & HMt).
  assert (Herr : Z.abs (round_nearest_even (shr_m mrs) (loc_of_shr_record mrs) * (2 * b)
                        - (q * b + r)) <= b).
  { pose proof (Z.div2_odd q) as Hdm. rewrite Z.div2_div in Hdm.
    subst mrs. rewrite shr_1_spec in * by (destruct l as [|[]]; cbn; lia).
    rewrite shr_record_of_loc_m in *. cbn [shr_m] in *.
    set (h := q / 2) in *. clearbody h.
    destruct (Z.odd q); cbn [Z.b2z] in Hdm; subst q;
      destruct l as [|[]]; cbn in Hl |- *; try destruct (Z.even h); lia. }
  split; cbn [fst snd]; try lia.
  - replace (e + 1 + t - e) with (t + 1) by lia. rewrite Z.pow_add_r by lia.
    assert (1 <= 2 ^ t) by (apply (Z.pow_le_mono_r 2 0 t); lia).
    replace (M * (2 ^ t * 2 ^ 1)) with (M * 2 ^ t * 2) by ring. rewrite HMt. nia.
  - intros Hdiv. replace (e + 1 + t - e) with (t + 1) by lia. rewrite Z.pow_add_r by lia.
    replace (M * (2 ^ t * 2 ^ 1)) with (M * 2 ^ t * 2) by ring. rewrite HMt.
    destruct (divide_2b_remainder q r b _ Hr eq_refl Hdiv) as [-> Hodd].
    assert (l = loc_Exact) as -> by (apply (loc_of_fraction_0 l b); (done || lia)).
    pose proof (Z.div2_odd q) as Hdm. rewrite Z.div2_div, Hodd in Hdm. cbn [Z.b2z] in Hdm.
    subst mrs. rewrite shr_1_spec by (cbn; lia). cbn [shr_record_of_loc shr_m shr_r shr_s orb].
    rewrite Hodd. cbn [loc_of_shr_record round_nearest_even]. lia.
Qed.

Lemma SFdiv_rounded (a b : positive) (ea eb : Z) :
  Z.pos (digits2_pos a) = 53 -> Z.pos (digits2_pos b) = 53 ->
  -500 <= ea - eb <= 500 ->
  exists (M : positive) (E : Z),
    SFdiv prec emax (S754_finite false a ea) (S754_finite false b eb) = S754_finite false M E
    /\ rounded (ea - eb - 53) (Z.pos b) (Z.pos a * 2 ^ 53) (Z.pos M, E).
Proof.
  intros Ha Hb He.
  pose proof (digits2_bounds a) as Ba. rewrite Ha in Ba. simpl (53 - 1) in Ba.
  pose proof (digits2_bounds b) as Bb. rewrite Hb in Bb. simpl (53 - 1) in Bb.
  unfold SFdiv, SFdiv_core_binary. cbn [Zdigits2 xorb]. rewrite Ha, Hb.
  replace (Z.min (fexp prec emax (53 + ea - (53 + eb))) (ea - eb)) with (ea - eb - 53)
    by (unfold fexp, emin, prec, emax; lia).
  replace (ea - eb - (ea - eb - 53)) with 53 by lia.
  rewrite Z.shiftl_mul_pow2 by lia.
  pose proof (Z.div_eucl_eq (Z.pos a * 2 ^ 53) (Z.pos b) ltac:(lia)) as Heq.
  pose proof (Z.mod_pos_bound (Z.pos a * 2 ^ 53) (Z.pos b) ltac:(lia)) as Hr.
  unfold Z.modulo in Hr.
  destruct (Z.div_eucl (Z.pos a * 2 ^ 53) (Z.pos b)) as [q r].
  assert (Hq : 2 ^ 52 <= q < 2 ^ 54) by nia.
  pose proof (new_location_fraction (Z.pos b) r Hr) as Hl.
  destruct q as [|q|q]; try lia.
  destruct (Z.lt_ge_cases (Z.pos q) (2 ^ 53)) as [Hlt|Hge].
  - rewrite binary_round_aux_53; [|apply digits2_unique; lia|lia].
    pose proof (round53_rounded (Z.pos q) (ea - eb - 53) r (Z.pos b) _ ltac:(lia) Hr Hl) as HR.
    destruct (round53 _ _ _) as [M E]. cbn [fst snd].
    destruct M as [|M|M]; [destruct HR; cbn in *; lia| |destruct HR; cbn in *; lia].
    exists M, E. split; [done|]. rewrite Heq. replace (Z.pos b * Z.pos q) with (Z.pos q * Z.pos b) by ring. done.
  - rewrite binary_round_aux_54; [|apply digits2_unique; lia|lia].
    pose proof (round54_rounded (Z.pos q) (ea - eb - 53) r (Z.pos b) _ ltac:(lia) Hr Hl) as HR.
    destruct (round54 _ _ _) as [M E]. cbn [fst snd].
    destruct M as [|M|M]; [destruct HR; cbn in *; lia| |destruct HR; cbn in *; lia].
    exists M, E. split; [done|]. rewrite Heq. replace (Z.pos b * Z.pos q) with (Z.pos q * Z.pos b) by ring. done.
Qed.

Lemma iter_xO_mul (p k : positive) : Z.pos (Pos.iter xO p k) = Z.pos p * 2 ^ Z.pos k.
Proof.
  change (Pos.iter xO p k) with (shift_pos k p). rewrite shift_pos_correct.
  rewrite Zpower_pos_nat, Zpower_nat_Z, positive_nat_Z. ring.
Qed.

(** [float(v)] is exact for [1 <= v <= 2^53]: a 53-bit mantissa [a] and an
    exponent [e] with [a * 2^e = v]. *)
Lemma binary_normalize_exact (v : Z) :
  1 <= v <= 2 ^ 53 ->
  exists (a : positive) (e : Z),
    binary_normalize prec emax v 0 false = S754_finite false a e
    /\ Z.pos (digits2_pos a) = 53 /\ -52 <= e <= 1
    /\ Z.pos a * 2 ^ (e + 52) = v * 2 ^ 52.
Proof.
  intros Hv. destruct (Z.eq_dec v (2 ^ 53)) as [->|Hne].
  { exists (Z.to_pos (2 ^ 52)), 1. vm_compute. repeat split; congruence. }
  destruct v as [|p|p]; try lia. cbn [binary_normalize]. unfold binary_round.
  pose proof (digits2_bounds p) as Bp. set (d := Z.pos (digits2_pos p)) in *.
  assert (Hd : 1 <= d <= 53).
  { split; [lia|]. destruct (Z.le_gt_cases d 53); [done|].
    assert (2 ^ 53 <= 2 ^ (d - 1)) by (apply Z.pow_le_mono_r; lia). lia. }
  rewrite fexp_normal by lia. unfold shl_align.
  destruct (d + 0 - 53 - 0) as [|k|k] eqn:Hk; try lia.
  - assert (Hd53 : d = 53) by (clear -Hk; lia). rewrite binary_round_aux_exact53; [|exact Hd53|lia].
    exists p, 0. fold d. repeat split; try lia.
  - assert (Hdk : Z.pos (digits2_pos (Pos.iter xO p k)) = 53).
    { apply digits2_unique. rewrite iter_xO_mul.
      assert (0 < 2 ^ Z.pos k) by (apply Z.pow_pos_nonneg; lia).
      replace (53 - 1) with ((d - 1) + Z.pos k) by lia.
      replace (2 ^ 53) with (2 ^ (d + Z.pos k)) by (f_equal; lia).
      rewrite !Z.pow_add_r by lia. nia. }
    rewrite binary_round_aux_exact53 by (done || lia).
    exists (Pos.iter xO p k), (d + 0 - 53). repeat split; try lia.
    rewrite iter_xO_mul. replace (d + 0 - 53 + 52) with (52 - Z.pos k) by lia.
    rewrite <- Z.mul_assoc, <- Z.pow_add_r by lia. f_equal. f_equal. lia.
Qed.

(** Order of two positive normal floats, read off their values scaled by
    a common power of two. *)
Lemma SFltb_normal (m1 m2 : positive) (e1 e2 c : Z) :
  Z.pos (digits2_pos m1) = 53 -> Z.pos (digits2_pos m2) = 53 ->
  0 <= e1 + c -> 0 <= e2 + c ->
  Z.pos m1 * 2 ^ (e1 + c) < Z.pos m2 * 2 ^ (e2 + c) ->
  SFltb (S754_finite false m1 e1) (S754_finite false m2 e2) = true.
Proof.
  intros H1 H2 Hc1 Hc2 Hlt.
  pose proof (digits2_bounds m1) as B1. rewrite H1 in B1. simpl (53 - 1) in B1.
  pose proof (digits2_bounds m2) as B2. rewrite H2 in B2. simpl (53 - 1) in B2.
  unfold SFltb, SFcompare. destruct (Z.compare_spec e1 e2) as [->|Hl|Hg]; [|done|].
  - rewrite Pos.compare_cont_spec. cbn [Pos.switch_Eq].
    assert (0 < 2 ^ (e2 + c)) by (apply Z.pow_pos_nonneg; lia).
    apply Z.mul_lt_mono_pos_r in Hlt; [|done].
    assert (Hm : (m1 ?= m2)%positive = Lt) by exact Hlt.
    rewrite Hm. done.
  - exfalso. replace (e1 + c) with ((e1 - e2 - 1) + 1 + (e2 + c)) in Hlt by lia.
    rewrite !Z.pow_add_r in Hlt by lia.
    assert (0 < 2 ^ (e2 + c)) by (apply Z.pow_pos_nonneg; lia).
    assert (0 < 2 ^ (e1 - e2 - 1)) by (apply Z.pow_pos_nonneg; lia).
    change (2 ^ 1) with 2 in Hlt.
    set (A := 2 ^ (e1 - e2 - 1)) in *. set (B := 2 ^ (e2 + c)) in *.
    assert (Z.pos m2 * B < 2 ^ 53 * B) by (apply Z.mul_lt_mono_pos_r; lia).
    assert (2 ^ 53 * B <= Z.pos m1 * 2 * B) by (apply Z.mul_le_mono_nonneg_r; lia).
    assert (Z.pos m1 * 2 * B * 1 <= Z.pos m1 * 2 * B * A) by (apply Z.mul_le_mono_nonneg_l; lia).
    lia.
Qed.

Lemma pow2_dichotomy (i j : Z) : 0 <= i -> 0 <= j -> 2 ^ i <= 2 ^ j \/ 2 * 2 ^ j <= 2 ^ i.
Proof.
  intros Hi Hj. destruct (Z.le_gt_cases i j) as [Hle|Hgt].
  - left. apply Z.pow_le_mono_r; lia.
  - right. replace (2 * 2 ^ j) with (2 ^ (j + 1)) by (rewrite Z.pow_add_r; lia).
    apply Z.pow_le_mono_r; lia.
Qed.

Section Quotients.
(** The divisor [n], with [float(n) = b * 2^en]. *)
Variables (n : Z) (b : positive) (en : Z).
Hypothesis Hn : 1 <= n <= 2 ^ 53.
Hypothesis Hfn : binary_normalize prec emax n 0 false = S754_finite false b en.
Hypothesis Hdb : Z.pos (digits2_pos b) = 53.
Hypothesis Hen : -52 <= en <= 1.
Hypothesis Hbn : Z.pos b * 2 ^ (en + 52) = n * 2 ^ 52.

Lemma quotient_exists (v : Z) :
  1 <= v <= n ->
  exists (x : spec_float) (M : positive) (E : Z),
    binary_normalize prec emax v 0 false = x
    /\ SFdiv prec emax x (S754_finite false b en) = S754_finite false M E
    /\ quotient n b en v M E.
Proof.
  intros Hv.
  destruct (binary_normalize_exact v ltac:(lia)) as (a & ev & Hfv & Hda & Hev & Hav).
  destruct (SFdiv_rounded a b ev en Hda Hdb ltac:(lia)) as (M & E & Hdiv & [HM Hsh Herr Hex]).
  cbn [fst snd] in *.
  exists (S754_finite false a ev), M, E. split; [done|]. split; [done|].
  set (t := E - (ev - en - 53)) in *.
  assert (HEc : E + (en + 105) = t + (ev + 52)) by lia.
  assert (Hs : 0 < 2 ^ (ev + 52)) by (apply Z.pow_pos_nonneg; lia).
  assert (Hv105 : v * 2 ^ 105 = 2 ^ (ev + 52) * (Z.pos a * 2 ^ 53)).
  { replace (2 ^ 105) with (2 ^ 52 * 2 ^ 53) by (rewrite <- Z.pow_add_r; lia).
    rewrite Z.mul_assoc, <- Hav. ring. }
  assert (Hdiff : Z.pos M * 2 ^ (E + (en + 105)) * Z.pos b - v * 2 ^ 105
                  = 2 ^ (ev + 52) * (Z.pos M * 2 ^ t * Z.pos b - Z.pos a * 2 ^ 53)).
  { rewrite HEc, (Z.pow_add_r 2 t (ev + 52)), Hv105 by lia. ring. }
  split.
  - apply digits2_unique. lia.
  - lia.
  - rewrite Hdiff, Z.abs_mul, (Z.abs_eq (2 ^ (ev + 52))) by lia.
    rewrite HEc, (Z.pow_add_r 2 t (ev + 52)) by lia.
    apply (Z.mul_le_mono_nonneg_l _ _ (2 ^ (ev + 52))) in Herr; lia.
  - intros Hcase.
    assert (Hd2 : (2 * Z.pos b | Z.pos a * 2 ^ 53)).
    { destruct Hcase as [-> | ->].
      - rewrite Hfn in Hfv. injection Hfv as -> ->.
        exists (2 ^ 52). change (2 ^ 53) with (2 ^ 52 * 2). ring.
      - assert (en = 1 /\ Z.pos b = 2 ^ 52) as [-> Hb].
        { vm_compute in Hfn. injection Hfn as <- <-. done. }
        exists (Z.pos a). rewrite Hb. change (2 ^ 53) with (2 * 2 ^ 52). ring. }
    specialize (Hex Hd2). apply Z.sub_move_0_r. rewrite Hdiff, Hex. ring.
Qed.

(** The value of a quotient below [1] has exponent at most [-53]. *)
Lemma quotient_small (v : Z) (M : positive) (E : Z) :
  1 <= v < n -> n < 2 ^ 53 -> quotient n b en v M E ->
  2 ^ (E + (en + 105)) <= 2 ^ (en + 52).
Proof.
  intros Hv Hlt [Hd Hsc Herr _].
  pose proof (digits2_bounds M) as BM. rewrite Hd in BM. change (2 ^ (53 - 1)) with (2 ^ 52) in BM.
  destruct (pow2_dichotomy (E + (en + 105)) (en + 52) ltac:(lia) ltac:(lia)) as [Hle|Hge]; [done|].
  exfalso.
  set (u := 2 ^ (E + (en + 105))) in *. set (P := 2 ^ (en + 52)) in *.
  assert (HP : 0 < P) by (apply Z.pow_pos_nonneg; lia).
  assert (HbP : Z.pos b * P < 2 ^ 105).
  { rewrite Hbn. change (2 ^ 105) with (2 ^ 53 * 2 ^ 52). apply Z.mul_lt_mono_pos_r; lia. }
  assert (Hn106 : n * 2 ^ 106 = Z.pos b * P * 2 ^ 54).
  { rewrite Hbn. change (2 ^ 106) with (2 ^ 52 * 2 ^ 54). ring. }
  assert (H1 : 2 ^ 52 * (u * Z.pos b) <= Z.pos M * u * Z.pos b) by nia.
  assert (H2 : 2 * (Z.pos M * u * Z.pos b) <= 2 * (v * 2 ^ 105) + Z.pos b * u) by lia.
  assert (H3 : (2 ^ 53 - 1) * (u * Z.pos b) <= (n - 1) * 2 ^ 106) by lia.
  assert (H4 : (2 ^ 53 - 1) * (2 * P * Z.pos b) <= (2 ^ 53 - 1) * (u * Z.pos b)).
  { apply Z.mul_le_mono_nonneg_l; [lia|]. apply Z.mul_le_mono_nonneg_r; lia. }
  lia.
Qed.

(** The rounded quotient is within [2^-54] of [v / n], and equal to it
    when [v = n] or [n = 2^53]. *)
Lemma quotient_err (v : Z) (M : positive) (E : Z) :
  1 <= v <= n -> quotient n b en v M E ->
  2 * Z.abs (Z.pos M * 2 ^ (E + (en + 105)) * Z.pos b - v * 2 ^ 105) < 2 ^ 105.
Proof.
  intros Hv HQ.
  destruct (Z.eq_dec v n) as [Hvn|Hvn]; [|destruct (Z.eq_dec n (2 ^ 53)) as [Hn53|Hn53]].
  - rewrite (quot_exact _ _ _ _ _ _ HQ) by auto. rewrite Z.sub_diag. cbn. lia.
  - rewrite (quot_exact _ _ _ _ _ _ HQ) by auto. rewrite Z.sub_diag. cbn. lia.
  - pose proof (quotient_small v M E ltac:(lia) ltac:(lia) HQ) as Hu.
    pose proof (quot_err _ _ _ _ _ _ HQ) as Herr.
    assert (Z.pos b * 2 ^ (en + 52) < 2 ^ 105).
    { rewrite Hbn. change (2 ^ 105) with (2 ^ 53 * 2 ^ 52). apply Z.mul_lt_mono_pos_r; lia. }
    assert (Z.pos b * 2 ^ (E + (en + 105)) <= Z.pos b * 2 ^ (en + 52))
      by (apply Z.mul_le_mono_nonneg_l; lia).
    lia.
Qed.

Lemma quotient_lt (v w : Z) (M1 M2 : positive) (E1 E2 : Z) :
  1 <= v -> v < w -> w <= n -> quotient n b en v M1 E1 -> quotient n b en w M2 E2 ->
  SFltb (S754_finite false M1 E1) (S754_finite false M2 E2) = true.
Proof.
  intros Hv Hvw Hw Q1 Q2.
  apply (SFltb_normal M1 M2 E1 E2 (en + 105));
    [apply Q1|apply Q2|apply Q1|apply Q2|].
  pose proof (quotient_err v M1 E1 ltac:(lia) Q1) as R1.
  pose proof (quotient_err w M2 E2 ltac:(lia) Q2) as R2.
  set (G1 := Z.pos M1 * 2 ^ (E1 + (en + 105))) in *.
  set (G2 := Z.pos M2 * 2 ^ (E2 + (en + 105))) in *.
  assert (G1 * Z.pos b < G2 * Z.pos b) by lia.
  nia.
Qed.
End Quotients.

End Binary64.

(** ** Python primitives *)

Module PyFacts.

Ltac py_simpl :=
  cbn [mbind mret result_bind result_ret Py.bind] in *.

Lemma bind_ok_inv {A B} (r : result A) (k : A -> result B) (b : B) :
  (x ← r; k x) = Ok b -> exists a, r = Ok a /\ k a = Ok b.
Proof. destruct r as [a|e]; py_simpl; [eauto|discriminate]. Qed.

Lemma list_comp_Forall2 {A B} (f : A -> result B) (l : list A) (ys : list B) :
  list_comp f l = Ok ys <-> Forall2 (fun x y => f x = Ok y) l ys.
Proof.
  revert ys. induction l as [|x xs IH]; intros ys; cbn [list_comp].
  - split; [intros [= <-]; constructor|intros Hnil; inversion Hnil; done].
  - split.
    + intros H. destruct (f x) as [y|e] eqn:Hfx; cbn [bind] in H; [|discriminate].
      destruct (list_comp f xs) as [ys'|e] eqn:Hxs; cbn [bind] in H; [|discriminate].
      injection H as <-. constructor; [done|]. by apply IH.
    + intros H. inversion H as [|? y ? ys' Hfx Hrest]; subst.
      apply IH in Hrest. rewrite Hfx. cbn [bind]. rewrite Hrest. reflexivity.
Qed.

Lemma list_comp_total {A B} (f : A -> result B) (l : list A) :
  Forall (fun x => exists y, f x = Ok y) l -> exists ys, list_comp f l = Ok ys.
Proof.
  induction 1 as [|x xs [y Hy] _ [ys Hys]]; cbn [list_comp]; [eauto|].
  rewrite Hy. cbn [bind]. rewrite Hys. cbn [bind]. eauto.
Qed.

Lemma list_comp_length {A B} (f : A -> result B) (l : list A) (ys : list B) :
  list_comp f l = Ok ys -> length ys = length l.
Proof. intros H. apply list_comp_Forall2, Forall2_length in H. done. Qed.

Lemma list_comp_lookup {A B} (f : A -> result B) (l : list A) (ys : list B) (i : nat) (y : B) :
  list_comp f l = Ok ys -> ys !! i = Some y -> exists x, l !! i = Some x /\ f x = Ok y.
Proof.
  intros H Hy. apply list_comp_Forall2 in H.
  destruct (Forall2_lookup_r _ _ _ _ _ H Hy) as (x & Hx & Hf). eauto.
Qed.

Lemma list_comp_raise_head {A B} (f : A -> result B) (x : A) (xs : list A) (e : exn) :
  f x = Raise e -> list_comp f (x :: xs) = Raise e.
Proof. intros H. cbn [list_comp]. rewrite H. done. Qed.

Lemma length_range (a b : Z) : length (range a b) = Z.to_nat (b - a).
Proof. unfold range. by rewrite length_map, length_seq. Qed.

Lemma range_lookup (a b : Z) (i : nat) :
  (i < Z.to_nat (b - a))%nat -> range a b !! i = Some (a + Z.of_nat i).
Proof.
  intros Hi. unfold range. rewrite list_lookup_fmap, lookup_seq_lt by done. done.
Qed.

Lemma range_lookup_inv (a b : Z) (i : nat) (v : Z) :
  range a b !! i = Some v -> v = a + Z.of_nat i /\ a <= v < b.
Proof.
  intros H. assert (Hi : (i < Z.to_nat (b - a))%nat).
  { apply lookup_lt_Some in H. by rewrite length_range in H. }
  rewrite range_lookup in H by done. injection H as <-. lia.
Qed.

Lemma range_cons (a b : Z) : a < b -> range a b = a :: range (a + 1) b.
Proof.
  intros Hlt. apply list_eq. intros [|i].
  - rewrite range_lookup by lia. cbn. f_equal. lia.
  - change ((a :: range (a + 1) b) !! S i) with (range (a + 1) b !! i).
    destruct (decide (S i < Z.to_nat (b - a))%nat) as [Hi|Hi].
    + rewrite !range_lookup by lia. f_equal. lia.
    + rewrite (lookup_ge_None_2 (range a b)) by (rewrite length_range; lia).
      rewrite (lookup_ge_None_2 (range (a + 1) b)) by (rewrite length_range; lia). done.
Qed.

Lemma slice_to_nonneg {A} (k : Z) (l : list A) :
  0 <= k -> slice_to k l = take (Z.to_nat k) l.
Proof. intros Hk. unfold slice_to. destruct (Z.ltb_spec k 0); [lia|done]. Qed.

End PyFacts.

Import PyFacts.

(** ** The threshold axis *)

Module Thresholds.
Import Binary64.

Lemma new_location_0 (b : Z) : new_location b 0 = loc_Exact.
Proof. unfold new_location. destruct (Z.even b); reflexivity. Qed.

(** A normal number divided by itself is [1.0]. *)
Lemma SFdiv_self (b : positive) (e : Z) :
  SFdiv prec emax (S754_finite false b e) (S754_finite false b e) = fone.
Proof.
  unfold SFdiv, SFdiv_core_binary. cbn [Zdigits2 xorb].
  replace (Z.pos (digits2_pos b) + e - (Z.pos (digits2_pos b) + e)) with 0 by lia.
  replace (e - e) with 0 by lia.
  change (Z.min (fexp prec emax 0) 0) with (-53). change (0 - -53) with 53.
  rewrite Z.shiftl_mul_pow2 by lia.
  pose proof (Z.div_eucl_eq (Z.pos b * 2 ^ 53) (Z.pos b) ltac:(lia)) as Heq.
  pose proof (Z.mod_pos_bound (Z.pos b * 2 ^ 53) (Z.pos b) ltac:(lia)) as Hr.
  unfold Z.modulo in Hr.
  destruct (Z.div_eucl (Z.pos b * 2 ^ 53) (Z.pos b)) as [q r].
  assert (q = 2 ^ 53) as -> by nia. assert (r = 0) as -> by lia.
  rewrite new_location_0. reflexivity.
Qed.

Section Divisor.
Variables (n : Z) (b : positive) (en : Z).
Hypothesis Hn : 1 <= n <= 2 ^ 53.
Hypothesis Hfn : binary_normalize prec emax n 0 false = S754_finite false b en.
Hypothesis Hdb : Z.pos (digits2_pos b) = 53.
Hypothesis Hen : -52 <= en <= 1.
Hypothesis Hbn : Z.pos b * 2 ^ (en + 52) = n * 2 ^ 52.

Lemma float_of_int_divisor : float_of_int n = Ok (S754_finite false b en).
Proof using Hfn. unfold float_of_int. rewrite Hfn. done. Qed.

(** [float(v) / n] is the correctly rounded quotient. *)
Lemma threshold_quotient (v : Z) :
  1 <= v <= n ->
  exists (M : positive) (E : Z),
    (x ← float_of_int v; float_truediv_int x n) = Ok (S754_finite false M E)
    /\ quotient n b en v M E.
Proof using All.
  intros Hv.
  destruct (quotient_exists n b en Hn Hfn Hdb Hen Hbn v Hv) as (x & M & E & Hx & Hdiv & HQ).
  exists M, E. split; [|done].
  destruct (binary_normalize_exact v ltac:(lia)) as (a & ev & Hfv & _).
  unfold float_of_int at 1. rewrite Hfv. py_simpl.
  unfold float_truediv_int. rewrite float_of_int_divisor. cbn [bind is_zero].
  unfold fdiv. rewrite <- Hx, Hfv in Hdiv. by rewrite Hdiv.
Qed.

Lemma threshold_last :
  (x ← float_of_int n; float_truediv_int x n) = Ok fone.
Proof using Hfn.
  rewrite float_of_int_divisor. py_simpl.
  unfold float_truediv_int. rewrite float_of_int_divisor. cbn [bind is_zero].
  unfold fdiv. by rewrite SFdiv_self.
Qed.
End Divisor.

(** [_compute_thresholds(2**1024)]: the first division already fails,
    the divisor being too large for a float. *)
Lemma compute_thresholds_too_large :
  _compute_thresholds (2 ^ 1024) = Raise OverflowError.
Proof.
  unfold _compute_thresholds. rewrite range_cons by (vm_compute; done).
  apply list_comp_raise_head. vm_compute. reflexivity.
Qed.

(** C2 (as amended).  For every integer [1 <= num_thresholds <= 2^53],
    [_compute_thresholds] returns a list of exactly [num_thresholds]
    floats; its element at index [i] is the float quotient
    [float(i + 1) / num_thresholds]; the list is strictly increasing; its
    first element is [1.0 / num_thresholds] and is positive; its last
    element is exactly [1.0]. *)
Theorem compute_thresholds_spec (num_thresholds : Z) :
  1 <= num_thresholds <= 2 ^ 53 ->
  exists ts : list float,
    _compute_thresholds num_thresholds = Ok ts
    /\ Z.of_nat (length ts) = num_thresholds
    /\ (forall (i : nat) (t : float),
          ts !! i = Some t ->
          (x ← float_of_int (Z.of_nat i + 1); float_truediv_int x num_thresholds) = Ok t)
    /\ (forall (i j : nat) (x y : float),
          (i < j)%nat -> ts !! i = Some x -> ts !! j = Some y -> fltb x y = true)
    /\ (exists t0 : float,
          ts !! 0%nat = Some t0
          /\ float_truediv_int fone num_thresholds = Ok t0
          /\ fltb fzero t0 = true)
    /\ last ts = Some fone.
Proof.
  intros Hn. set (n := num_thresholds) in *.
  destruct (binary_normalize_exact n Hn) as (b & en & Hfn & Hdb & Hen & Hbn).
  pose proof (threshold_quotient n b en Hn Hfn Hdb Hen Hbn) as Hq.
  set (f := fun v : Z => x ← float_of_int v; float_truediv_int x n) in *.
  destruct (list_comp_total f (range 1 (n + 1))) as [ts Hts].
  { apply Forall_forall. intros v Hv. apply list_elem_of_lookup in Hv as [i Hi].
    apply range_lookup_inv in Hi as [_ Hv].
    destruct (Hq v ltac:(lia)) as (M & E & HM & _). eauto. }
  assert (Hlen : Z.of_nat (length ts) = n).
  { rewrite (list_comp_length _ _ _ Hts), length_range. lia. }
  assert (Helem : forall (i : nat) (t : float),
             ts !! i = Some t -> 1 <= Z.of_nat i + 1 <= n /\ f (Z.of_nat i + 1) = Ok t).
  { intros i t Ht. destruct (list_comp_lookup _ _ _ _ _ Hts Ht) as (v & Hv & Hfv).
    apply range_lookup_inv in Hv as [-> Hv]. rewrite (Z.add_comm (Z.of_nat i) 1).
    split; [lia|done]. }
  exists ts. split; [exact Hts|]. split; [exact Hlen|]. split; [|split; [|split]].
  - intros i t Ht. by apply Helem.
  - intros i j x y Hij Hx Hy.
    destruct (Helem i x Hx) as [Hi Hfx]. destruct (Helem j y Hy) as [Hj Hfy].
    destruct (Hq _ Hi) as (M1 & E1 & H1 & Q1). destruct (Hq _ Hj) as (M2 & E2 & H2 & Q2).
    fold (f (Z.of_nat i + 1)) in H1. fold (f (Z.of_nat j + 1)) in H2.
    rewrite Hfx in H1. rewrite Hfy in H2. injection H1 as ->. injection H2 as ->.
    eapply (quotient_lt n b en); [..|exact Q1|exact Q2]; (eassumption || lia).
  - destruct ts as [|t0 ts']; [cbn in Hlen; lia|].
    exists t0. split; [done|].
    destruct (Helem 0%nat t0 eq_refl) as [H0 Hf0].
    destruct (Hq _ H0) as (M & E & HM & _). fold (f (Z.of_nat 0 + 1)) in HM.
    rewrite Hf0 in HM. injection HM as ->. split; [|reflexivity]. exact Hf0.
  - rewrite last_lookup.
    destruct (ts !! pred (length ts)) as [t|] eqn:Ht.
    + destruct (Helem _ _ Ht) as [_ Hft].
      replace (Z.of_nat (pred (length ts)) + 1) with n in Hft by lia.
      unfold f in Hft. rewrite (threshold_last n b en Hfn) in Hft. by injection Hft as <-.
    + apply lookup_ge_None in Ht. lia.
Qed.

Lemma compute_thresholds_spec_witness :
  1 <= 3 <= 2 ^ 53
  /\ exists ts : list float,
       _compute_thresholds 3 = Ok ts /\ Z.of_nat (length ts) = 3 /\ last ts = Some fone.
Proof.
  split; [lia|].
  destruct (compute_thresholds_spec 3 ltac:(lia)) as (ts & Hts & Hlen & _ & _ & _ & Hlast).
  exists ts. auto.
Defined.

(** Beyond [2^53] the list stops being strictly increasing: for
    [num_thresholds = 2^53 + 1] the elements of indices [2^53 - 1] and
    [2^53] are both [1.0], since [float(2^53 + 1) = float(2^53)]. *)
Remark thresholds_tie_above_2_53 :
  (x ← float_of_int (2 ^ 53); float_truediv_int x (2 ^ 53 + 1)) = Ok fone
  /\ (x ← float_of_int (2 ^ 53 + 1); float_truediv_int x (2 ^ 53 + 1)) = Ok fone.
Proof. split; vm_compute; reflexivity. Qed.

(** C2 as stated fails: [num_thresholds] ranges over all integers
    [>= 1], and for [2**1024] no list is returned. *)
Lemma compute_thresholds_counterexample :
  1 <= 2 ^ 1024 /\ forall ts : list float, _compute_thresholds (2 ^ 1024) <> Ok ts.
Proof.
  split; [vm_compute; discriminate|].
  intros ts. rewrite compute_thresholds_too_large. discriminate.
Qed.

End Thresholds.

(** ** The curve entry builder *)

Module EntryFacts.

Lemma getitem_ok_inv {A} (l : list A) (i : nat) (x : A) :
  getitem l i = Ok x -> l !! i = Some x.
Proof. unfold getitem. destruct (l !! i); [by intros [= ->]|discriminate]. Qed.

Lemma getitem_lookup {A} (l : list A) (i : nat) (x : A) :
  l !! i = Some x -> getitem l i = Ok x.
Proof. unfold getitem. by intros ->. Qed.

Lemma int_of_float_finite (x : float) :
  is_finite x = true -> exists z, int_of_float x = Ok z.
Proof. destruct x; cbn; (discriminate || eauto). Qed.

Lemma list_comp_int_of_float_total (row : list float) :
  forallb is_finite row = true -> exists zs, list_comp int_of_float row = Ok zs.
Proof.
  intros H. apply list_comp_total, Forall_forall. intros x Hx.
  apply int_of_float_finite. rewrite forallb_forall in H. apply H.
  by apply list_elem_of_In.
Qed.

Lemma list_comp_take {A B} (f : A -> result B) (l : list A) (ys : list B) (k : nat) :
  list_comp f l = Ok ys -> list_comp f (take k l) = Ok (take k ys).
Proof.
  rewrite !list_comp_Forall2. apply Forall2_take.
Qed.

(** *** The trimming loop *)

Lemma trim_loop_spec (positives : list Z) (i : nat) :
  (i < length positives)%nat ->
  exists k : nat,
    trim_loop positives i = Ok (Z.of_nat k)
    /\ (k <= i)%nat
    /\ (forall j, (k < j <= i)%nat -> positives !! j = Some 0)
    /\ (k = 0%nat \/ exists p, positives !! k = Some p /\ p <> 0).
Proof.
  induction i as [|i IH]; intros Hi; cbn [trim_loop].
  - exists 0%nat. repeat split; [lia|intros; lia|by left].
  - destruct (lookup_lt_is_Some_2 positives (S i) Hi) as [p Hp].
    rewrite (getitem_lookup _ _ _ Hp). py_simpl.
    destruct (Z.eqb_spec p 0) as [->|Hne].
    + destruct (IH ltac:(lia)) as (k & Hk & Hle & Hz & Hlast).
      exists k. repeat split; [done|lia| |done].
      intros j Hj. destruct (decide (j = S i)) as [->|]; [done|apply Hz; lia].
    + exists (S i). repeat split; [lia|intros; lia|right; eauto].
Qed.

Lemma trim_end_index_spec (positives : list Z) :
  exists k : nat,
    trim_end_index positives = Ok (Z.of_nat k)
    /\ (k <= length positives)%nat
    /\ (1 <= length positives -> 1 <= k)%nat
    /\ (forall j, (k <= j < length positives)%nat -> positives !! j = Some 0)
    /\ ((k <= 1)%nat \/ exists p, positives !! pred k = Some p /\ p <> 0).
Proof.
  unfold trim_end_index.
  destruct (Z.gtb_spec (Z.of_nat (length positives) - 1) 0) as [Hgt|Hle].
  - destruct (trim_loop_spec positives (Z.to_nat (Z.of_nat (length positives) - 1)) ltac:(lia))
      as (k & Hk & Hle & Hz & Hlast).
    rewrite Hk. py_simpl. exists (S k).
    split; [f_equal; lia|]. split; [lia|]. split; [lia|]. split.
    + intros j Hj. apply Hz. lia.
    + destruct Hlast as [->|Hp]; [left; lia|right; exact Hp].
  - py_simpl. exists (length positives).
    split; [f_equal; lia|]. split; [lia|]. split; [lia|]. split; [intros; lia|left; lia].
Qed.

(** *** Shape *)

Lemma has_shape_rows (data_array : ndarray) (width : nat) :
  has_shape data_array width = true ->
  exists r0 r1 r2 r3 r4 r5,
    data_array = [r0; r1; r2; r3; r4; r5]
    /\ length r0 = width /\ length r1 = width /\ length r2 = width
    /\ length r3 = width /\ length r4 = width /\ length r5 = width.
Proof.
  unfold has_shape. rewrite andb_true_iff, Nat.eqb_eq. intros [Hlen Hrows].
  destruct data_array as [|r0 [|r1 [|r2 [|r3 [|r4 [|r5 [|]]]]]]]; try discriminate.
  cbn [forallb] in Hrows. rewrite !andb_true_iff, !Nat.eqb_eq in Hrows.
  destruct Hrows as (? & ? & ? & ? & ? & ? & _).
  exists r0, r1, r2, r3, r4, r5. repeat split; done.
Qed.

Section WithPlatform.
Context `{Platform}.

Lemma astype_int_in_range (x : float) (z : Z) :
  int_of_float x = Ok z -> int64_min <= z <= int64_max -> astype_int x = z.
Proof.
  intros Hx Hz. unfold astype_int. rewrite Hx.
  destruct (Z.leb_spec int64_min z), (Z.leb_spec z int64_max); (done || lia).
Qed.

Lemma positives_rows (r0 r1 : list float) (rest : ndarray) :
  positives (r0 :: r1 :: rest) = Ok (sum_axis0 (astype_int <$> r0) (astype_int <$> r1)).
Proof. reflexivity. Qed.

Lemma positives_lookup (r0 r1 : list float) (i : nat) (x y : float) :
  r0 !! i = Some x -> r1 !! i = Some y ->
  sum_axis0 (astype_int <$> r0) (astype_int <$> r1) !! i
  = Some (int64_wrap (astype_int x + astype_int y)).
Proof.
  intros Hx Hy. unfold sum_axis0. rewrite lookup_zip_with.
  rewrite !list_lookup_fmap, Hx, Hy. reflexivity.
Qed.

Lemma length_positives (r0 r1 : list float) (w : nat) :
  length r0 = w -> length r1 = w ->
  length (sum_axis0 (astype_int <$> r0) (astype_int <$> r1)) = w.
Proof.
  intros H0 H1. unfold sum_axis0. rewrite length_zip_with, !length_fmap. lia.
Qed.

(** What a returned entry is made of. *)
Lemma make_pr_entry_inv (step : Z) (wall_time : float) (data_array : ndarray)
    (thresholds : list float) (entry : Entry) :
  _make_pr_entry step wall_time data_array thresholds = Ok entry ->
  exists (r0 r1 r2 r3 r4 r5 : list float) (rest : ndarray) (tps fps pos : list Z) (k : nat),
    data_array = r0 :: r1 :: r2 :: r3 :: r4 :: r5 :: rest
    /\ list_comp int_of_float r0 = Ok tps
    /\ list_comp int_of_float r1 = Ok fps
    /\ positives data_array = Ok pos
    /\ trim_end_index pos = Ok (Z.of_nat k)
    /\ list_comp int_of_float (take k r2) = Ok (true_negatives entry)
    /\ list_comp int_of_float (take k r3) = Ok (false_negatives entry)
    /\ entry = {| wall_time := wall_time; step := step;
                  precision := take k r4; recall := take k r5;
                  true_positives := take k tps; false_positives := take k fps;
                  true_negatives := true_negatives entry;
                  false_negatives := false_negatives entry;
                  thresholds := take k thresholds |}.
Proof.
  unfold _make_pr_entry. intros Hentry.
  apply bind_ok_inv in Hentry as (r0 & Hr0 & Hentry).
  apply bind_ok_inv in Hentry as (tps & Htps & Hentry).
  apply bind_ok_inv in Hentry as (r1 & Hr1 & Hentry).
  apply bind_ok_inv in Hentry as (fps & Hfps & Hentry).
  apply bind_ok_inv in Hentry as (pos & Hpos & Hentry).
  apply bind_ok_inv in Hentry as (e & He & Hentry).
  apply bind_ok_inv in Hentry as (r4 & Hr4 & Hentry).
  apply bind_ok_inv in Hentry as (r5 & Hr5 & Hentry).
  apply bind_ok_inv in Hentry as (r2 & Hr2 & Hentry).
  apply bind_ok_inv in Hentry as (tns & Htns & Hentry).
  apply bind_ok_inv in Hentry as (r3 & Hr3 & Hentry).
  apply bind_ok_inv in Hentry as (fns & Hfns & Hentry).
  injection Hentry as <-. cbn [true_negatives false_negatives].
  apply getitem_ok_inv in Hr0, Hr1, Hr2, Hr3, Hr4, Hr5.
  destruct data_array as [|r0' [|r1' [|r2' [|r3' [|r4' [|r5' rest]]]]]]; try discriminate.
  cbn in Hr0, Hr1, Hr2, Hr3, Hr4, Hr5.
  injection Hr0 as ->. injection Hr1 as ->. injection Hr2 as ->.
  injection Hr3 as ->. injection Hr4 as ->. injection Hr5 as ->.
  destruct (trim_end_index_spec pos) as (k & Hk & _).
  rewrite Hk in He. injection He as <-.
  rewrite !slice_to_nonneg in * by lia. rewrite !Nat2Z.id in *.
  exists r0, r1, r2, r3, r4, r5, rest, tps, fps, pos, k. done.
Qed.

(** A well-shaped tensor with finite counts always yields an entry. *)
Lemma make_pr_entry_total (step : Z) (wall_time : float) (data_array : ndarray)
    (thresholds : list float) (width : nat) :
  has_shape data_array width = true -> finite_counts data_array = true ->
  exists entry, _make_pr_entry step wall_time data_array thresholds = Ok entry.
Proof.
  intros Hshape Hfin.
  destruct (has_shape_rows _ _ Hshape) as (r0 & r1 & r2 & r3 & r4 & r5 & -> & _).
  unfold finite_counts in Hfin. cbn [take forallb] in Hfin.
  rewrite !andb_true_iff in Hfin. destruct Hfin as (F0 & F1 & F2 & F3 & _).
  destruct (list_comp_int_of_float_total r0 F0) as [tps Htps].
  destruct (list_comp_int_of_float_total r1 F1) as [fps Hfps].
  destruct (list_comp_int_of_float_total r2 F2) as [tns Htns].
  destruct (list_comp_int_of_float_total r3 F3) as [fns Hfns].
  unfold _make_pr_entry. cbn [getitem lookup list_lookup TRUE_POSITIVES_INDEX
    FALSE_POSITIVES_INDEX TRUE_NEGATIVES_INDEX FALSE_NEGATIVES_INDEX
    PRECISION_INDEX RECALL_INDEX]. py_simpl.
  rewrite Htps. py_simpl. rewrite Hfps. py_simpl.
  rewrite positives_rows. py_simpl.
  destruct (trim_end_index_spec (sum_axis0 (astype_int <$> r0) (astype_int <$> r1)))
    as (k & Hk & _).
  rewrite Hk. py_simpl. rewrite !slice_to_nonneg by lia. rewrite Nat2Z.id.
  rewrite (list_comp_take _ _ _ k Htns). py_simpl.
  rewrite (list_comp_take _ _ _ k Hfns). py_simpl. eauto.
Qed.
End WithPlatform.

End EntryFacts.

(** ** Claims about the curve entry builder *)

Module EntryClaims.
Import EntryFacts.

Section WithPlatform.
Context `{Platform}.

Lemma is_count_inv (x : float) :
  is_count x = true -> exists z, int_of_float x = Ok z /\ 0 <= z < 2 ^ 62.
Proof.
  unfold is_count. destruct (int_of_float x) as [z|]; [|discriminate].
  rewrite andb_true_iff, Z.leb_le, Z.ltb_lt. eauto.
Qed.

Lemma is_count_finite (x : float) : is_count x = true -> is_finite x = true.
Proof. destruct x; cbn; done. Qed.

Lemma confusion_matrix_tensor_finite (data_array : ndarray) (width : nat) :
  confusion_matrix_tensor data_array width = true ->
  has_shape data_array width = true /\ finite_counts data_array = true.
Proof.
  unfold confusion_matrix_tensor, finite_counts. rewrite andb_true_iff.
  intros [Hs Hc]. split; [done|].
  rewrite forallb_forall in *. intros row Hrow. specialize (Hc row Hrow).
  rewrite forallb_forall in *. intros x Hx. apply is_count_finite. by apply Hc.
Qed.

Lemma int64_wrap_small (z : Z) : - 2 ^ 63 <= z < 2 ^ 63 -> int64_wrap z = z.
Proof. intros Hz. unfold int64_wrap. rewrite Z.mod_small; lia. Qed.

(** The integer part of a float whose value is an integer is that
    integer. *)
Lemma has_integer_value_int (x : float) (n : Z) :
  has_integer_value x n = true -> int_of_float x = Ok n.
Proof.
  destruct x as [s|s| |s m e]; cbn [has_integer_value int_of_float]; try discriminate.
  - rewrite Z.eqb_eq. by intros ->.
  - unfold trunc_mag. destruct (Z.leb_spec 0 e) as [He|He]; rewrite Z.eqb_eq; intros Hn.
    + rewrite Z.shiftl_mul_pow2 by done. by rewrite Hn.
    + rewrite Z.shiftl_div_pow2 by lia.
      assert (Hpow : 0 < 2 ^ (- e)) by (apply Z.pow_pos_nonneg; lia).
      f_equal. destruct s; cbn [cond_Zopp] in *.
      * replace (Z.pos m) with (- n * 2 ^ (- e)) by lia.
        rewrite Z.div_mul by lia. lia.
      * rewrite <- Hn. apply Z.div_mul. lia.
Qed.

(** A row of counts that stores the integers [counts]: [int] returns
    them, and so does the cast of [astype(int)]. *)
Lemma stores_counts_exact (row : list float) (counts : list Z) :
  forallb is_count row = true -> stores_counts row counts = true ->
  list_comp int_of_float row = Ok counts
  /\ astype_int <$> row = counts
  /\ Forall (fun n => 0 <= n < 2 ^ 62) counts
  /\ length counts = length row.
Proof.
  revert counts. induction row as [|x row IH]; intros [|n counts] Hc Hs;
    cbn [stores_counts forallb] in *; try discriminate.
  { repeat split; constructor. }
  rewrite andb_true_iff in Hc, Hs. destruct Hc as [Hx Hc]. destruct Hs as [Hn Hs].
  destruct (IH counts Hc Hs) as (Hint & Hcast & Hrange & Hlen).
  apply has_integer_value_int in Hn.
  destruct (is_count_inv x Hx) as (z & Hz & Hz62).
  rewrite Hn in Hz. injection Hz as <-.
  repeat split.
  - cbn [list_comp]. rewrite Hn. cbn [bind]. rewrite Hint. reflexivity.
  - cbn [fmap list_fmap]. f_equal; [|exact Hcast].
    apply astype_int_in_range; [done|]. unfold int64_min, int64_max. lia.
  - by constructor.
  - cbn [length]. by rewrite Hlen.
Qed.

(** The 64-bit sum of two rows of counts is their sum. *)
Lemma sum_axis0_exact (a b : list Z) :
  Forall (fun n => 0 <= n < 2 ^ 62) a -> Forall (fun n => 0 <= n < 2 ^ 62) b ->
  sum_axis0 a b = zip_with Z.add a b.
Proof.
  intros Ha. revert b. induction Ha as [|x a Hx Ha IH]; intros b Hb; [done|].
  destruct Hb as [|y b Hy Hb]; [done|].
  unfold sum_axis0 in *. cbn [zip_with]. rewrite IH by done.
  rewrite int64_wrap_small by lia. done.
Qed.

(** C1.  Take a confusion-matrix tensor of width at least one whose
    true-positive and false-positive rows store the exact counts [tps]
    and [fps].  Then [positives[i]] is [tps[i] + fps[i]], and
    [_make_pr_entry] returns an entry whose sequences all have the length
    [end_index], with [1 <= end_index <= width], where: every column from
    [end_index] on has true positives plus false positives zero; column
    [end_index - 1] has true positives plus false positives above zero,
    unless it is column 0; so [end_index] is one more than the largest
    index whose true positives plus false positives is above zero, and is
    1 when the sum is zero in every column.  The returned true and false
    positives are the first [end_index] counts. *)
Theorem make_pr_entry_trims (step : Z) (wall_time : float) (data_array : ndarray)
    (thresholds_in : list float) (width : nat) (tp fp : list float) (tps fps : list Z) :
  confusion_matrix_tensor data_array width = true -> (1 <= width)%nat ->
  data_array !! TRUE_POSITIVES_INDEX = Some tp ->
  data_array !! FALSE_POSITIVES_INDEX = Some fp ->
  stores_counts tp tps = true -> stores_counts fp fps = true ->
  exists (entry : Entry) (end_index : nat),
    _make_pr_entry step wall_time data_array thresholds_in = Ok entry
    /\ positives data_array = Ok (zip_with Z.add tps fps)
    /\ (length tps = width /\ length fps = width)
    /\ (1 <= end_index <= width)%nat
    /\ (length (precision entry) = end_index
        /\ length (recall entry) = end_index
        /\ length (true_positives entry) = end_index
        /\ length (false_positives entry) = end_index
        /\ length (true_negatives entry) = end_index
        /\ length (false_negatives entry) = end_index)
    /\ thresholds entry = take end_index thresholds_in
    /\ true_positives entry = take end_index tps
    /\ false_positives entry = take end_index fps
    /\ (forall (j : nat) (a b : Z),
          (end_index <= j)%nat -> tps !! j = Some a -> fps !! j = Some b -> a + b = 0)
    /\ (end_index = 1%nat
        \/ exists a b : Z,
             tps !! pred end_index = Some a /\ fps !! pred end_index = Some b /\ 0 < a + b)
    /\ (forall (i : nat) (a b : Z),
          tps !! i = Some a -> fps !! i = Some b -> 0 < a + b ->
          (forall (j : nat) (a' b' : Z),
             (i < j)%nat -> tps !! j = Some a' -> fps !! j = Some b' -> a' + b' = 0) ->
          end_index = S i)
    /\ ((forall (i : nat) (a b : Z), tps !! i = Some a -> fps !! i = Some b -> a + b = 0) ->
        end_index = 1%nat).
Proof.
  intros Hcm Hw Htp Hfp Stp Sfp.
  destruct (confusion_matrix_tensor_finite _ _ Hcm) as [Hshape Hfin].
  destruct (make_pr_entry_total step wall_time data_array thresholds_in width Hshape Hfin)
    as [entry Hentry].
  destruct (make_pr_entry_inv _ _ _ _ _ Hentry)
    as (r0 & r1 & r2 & r3 & r4 & r5 & rest & tps' & fps' & pos' & k
        & Hdata & Htps & Hfps & Hpos & Hk & Htns & Hfns & Heq).
  destruct (has_shape_rows _ _ Hshape)
    as (r0' & r1' & r2' & r3' & r4' & r5' & Hdata' & L0 & L1 & L2 & L3 & L4 & L5).
  rewrite Hdata in Hdata'. injection Hdata' as <- <- <- <- <- <- ->.
  rewrite Hdata in Htp, Hfp. cbn in Htp, Hfp. injection Htp as <-. injection Hfp as <-.
  unfold confusion_matrix_tensor in Hcm. rewrite andb_true_iff in Hcm.
  destruct Hcm as [_ Hc]. rewrite Hdata in Hc. cbn [take forallb] in Hc.
  rewrite !andb_true_iff in Hc. destruct Hc as (C0 & C1 & _).
  destruct (stores_counts_exact r0 tps C0 Stp) as (I0 & A0 & R0 & N0).
  destruct (stores_counts_exact r1 fps C1 Sfp) as (I1 & A1 & R1 & N1).
  rewrite I0 in Htps. injection Htps as <-. rewrite I1 in Hfps. injection Hfps as <-.
  rewrite Hdata, positives_rows, A0, A1, sum_axis0_exact in Hpos by done.
  injection Hpos as <-.
  set (pos := zip_with Z.add tps fps) in *.
  assert (Hlen : length pos = width).
  { subst pos. rewrite length_zip_with. lia. }
  assert (Hcol : forall i : nat, (i < width)%nat ->
            exists a b : Z, tps !! i = Some a /\ fps !! i = Some b
                            /\ pos !! i = Some (a + b) /\ 0 <= a /\ 0 <= b).
  { intros i Hi.
    destruct (lookup_lt_is_Some_2 tps i ltac:(lia)) as [a Ha].
    destruct (lookup_lt_is_Some_2 fps i ltac:(lia)) as [b Hb].
    exists a, b. split; [done|]. split; [done|]. split.
    - subst pos. by rewrite lookup_zip_with, Ha, Hb.
    - rewrite Forall_forall in R0, R1.
      apply list_elem_of_lookup_2 in Ha, Hb. apply R0 in Ha. apply R1 in Hb. lia. }
  destruct (trim_end_index_spec pos) as (k' & Hk' & Hle & Hge & Hzero & Hlast).
  rewrite Hk in Hk'. injection Hk' as Hkk. apply Nat2Z.inj in Hkk. subst k'.
  rewrite Hlen in Hle, Hge, Hzero. specialize (Hge Hw).
  assert (Hlast' : k = 1%nat
            \/ exists a b : Z, tps !! pred k = Some a /\ fps !! pred k = Some b /\ 0 < a + b).
  { destruct Hlast as [Hk1|(p & Hp & Hne)]; [left; lia|]. right.
    destruct (Hcol (pred k) ltac:(lia)) as (a & b & Ha & Hb & Hab & Ha0 & Hb0).
    exists a, b. split; [done|]. split; [done|].
    rewrite Hab in Hp. injection Hp as <-. lia. }
  assert (Hzero' : forall (j : nat) (a b : Z),
            (k <= j)%nat -> tps !! j = Some a -> fps !! j = Some b -> a + b = 0).
  { intros j a b Hj Ha Hb.
    assert (Hjw : (j < width)%nat) by (apply lookup_lt_Some in Ha; lia).
    destruct (Hcol j Hjw) as (a' & b' & Ha' & Hb' & Hab & _).
    rewrite Ha in Ha'. injection Ha' as <-. rewrite Hb in Hb'. injection Hb' as <-.
    rewrite Hzero in Hab by lia. by injection Hab as <-. }
  exists entry, k.
  split; [done|]. split; [by rewrite Hdata, positives_rows, A0, A1, sum_axis0_exact|].
  split; [lia|]. split; [lia|]. split.
  { apply list_comp_length in Htns, Hfns.
    rewrite Heq. cbn [precision recall true_positives false_positives
                        true_negatives false_negatives].
    rewrite Htns, Hfns, !length_take. lia. }
  split; [by rewrite Heq|]. split; [by rewrite Heq|]. split; [by rewrite Heq|].
  split; [exact Hzero'|]. split; [exact Hlast'|]. split.
  - intros i a b Ha Hb Hab Hlater.
    assert (Hi : (i < width)%nat) by (apply lookup_lt_Some in Ha; lia).
    destruct (decide (k <= i)%nat) as [Hki|Hki].
    { specialize (Hzero' i a b Hki Ha Hb). lia. }
    destruct Hlast' as [->|(a' & b' & Ha' & Hb' & Hab')]; [lia|].
    destruct (decide (i < pred k)%nat) as [Hlt|Hge']; [|lia].
    specialize (Hlater _ _ _ Hlt Ha' Hb'). lia.
  - intros Hall. destruct Hlast' as [->|(a & b & Ha & Hb & Hab)]; [done|].
    specialize (Hall _ _ _ Ha Hb). lia.
Qed.

(** C4.  For a tensor of six rows of equal width and thresholds of the
    same width, the seven sequences of the returned entry all have the
    trimmed length [end_index]; an entry is returned whenever the count
    rows are finite. *)
Theorem make_pr_entry_equal_lengths (step : Z) (wall_time : float) (data_array : ndarray)
    (thresholds_in : list float) (width : nat) :
  has_shape data_array width = true -> length thresholds_in = width ->
  (finite_counts data_array = true ->
   exists entry, _make_pr_entry step wall_time data_array thresholds_in = Ok entry)
  /\ (forall entry : Entry,
        _make_pr_entry step wall_time data_array thresholds_in = Ok entry ->
        exists (pos : list Z) (end_index : nat),
          positives data_array = Ok pos
          /\ trim_end_index pos = Ok (Z.of_nat end_index)
          /\ length (precision entry) = end_index
          /\ length (recall entry) = end_index
          /\ length (true_positives entry) = end_index
          /\ length (false_positives entry) = end_index
          /\ length (true_negatives entry) = end_index
          /\ length (false_negatives entry) = end_index
          /\ length (thresholds entry) = end_index).
Proof.
  intros Hshape Hth. split; [intros Hfin; by apply (make_pr_entry_total _ _ _ _ width)|].
  intros entry Hentry.
  destruct (make_pr_entry_inv _ _ _ _ _ Hentry)
    as (r0 & r1 & r2 & r3 & r4 & r5 & rest & tps & fps & pos & k
        & Hdata & Htps & Hfps & Hpos & Hk & Htns & Hfns & Heq).
  destruct (has_shape_rows _ _ Hshape)
    as (r0' & r1' & r2' & r3' & r4' & r5' & Hdata' & L0 & L1 & L2 & L3 & L4 & L5).
  rewrite Hdata in Hdata'. injection Hdata' as <- <- <- <- <- <- ->.
  exists pos, k. split; [done|]. split; [done|].
  assert (Hkw : (k <= width)%nat).
  { rewrite Hdata, positives_rows in Hpos. injection Hpos as <-.
    destruct (trim_end_index_spec (sum_axis0 (astype_int <$> r0) (astype_int <$> r1)))
      as (k' & Hk' & Hle & _).
    rewrite Hk in Hk'. injection Hk' as Hkk. apply Nat2Z.inj in Hkk. subst k'.
    by rewrite (length_positives r0 r1 width) in Hle. }
  apply list_comp_length in Htps, Hfps, Htns, Hfns.
  rewrite Heq. cbn [precision recall true_positives false_positives
                      true_negatives false_negatives thresholds].
  rewrite Htns, Hfns, !length_take. lia.
Qed.

Lemma int_of_float_fraction (x : float) :
  strictly_between_0_and_1 x = true -> int_of_float x = Ok 0.
Proof.
  destruct x as [| | |[] m e]; cbn [strictly_between_0_and_1]; try discriminate.
  rewrite Z.ltb_lt. intros Hm. cbn [int_of_float cond_Zopp]. f_equal.
  unfold trunc_mag. destruct (Z.le_gt_cases 0 e) as [He|He].
  - destruct (Z.eq_dec e 0) as [->|Hne]; [cbn in Hm; lia|].
    rewrite Z.pow_neg_r in Hm by lia. lia.
  - rewrite Z.shiftl_div_pow2 by lia. apply Z.div_small. lia.
Qed.

(** C9.  [positives] adds the truncated counts, not the floating
    values: whenever [int(TP[i])], [int(FP[i])] and their sum fit
    64 bits, [positives[i] = int(TP[i]) + int(FP[i])].  Hence a column
    past the first whose true and false positives both lie strictly
    between 0 and 1, and which is followed only by columns of zero
    positives, is trimmed. *)
Theorem positives_truncate_first (data_array : ndarray) (tp fp : list float) :
  data_array !! TRUE_POSITIVES_INDEX = Some tp ->
  data_array !! FALSE_POSITIVES_INDEX = Some fp ->
  exists pos : list Z,
    positives data_array = Ok pos
    /\ (forall (i : nat) (x y : float) (a b : Z),
          tp !! i = Some x -> fp !! i = Some y ->
          int_of_float x = Ok a -> int_of_float y = Ok b ->
          int64_min <= a <= int64_max -> int64_min <= b <= int64_max ->
          int64_min <= a + b <= int64_max ->
          pos !! i = Some (a + b))
    /\ (forall (step : Z) (wall_time : float) (thresholds_in : list float)
               (width i : nat) (x y : float),
          confusion_matrix_tensor data_array width = true ->
          (1 <= i < width)%nat ->
          tp !! i = Some x -> fp !! i = Some y ->
          strictly_between_0_and_1 x = true -> strictly_between_0_and_1 y = true ->
          (forall j : nat, (i < j < width)%nat -> pos !! j = Some 0) ->
          pos !! i = Some 0
          /\ exists entry : Entry,
               _make_pr_entry step wall_time data_array thresholds_in = Ok entry
               /\ (length (true_positives entry) <= i)%nat
               /\ (length (precision entry) <= i)%nat).
Proof.
  intros Htp Hfp.
  destruct data_array as [|r0 [|r1 rest]]; try discriminate.
  cbn in Htp, Hfp. injection Htp as ->. injection Hfp as ->.
  exists (sum_axis0 (astype_int <$> tp) (astype_int <$> fp)).
  split; [apply positives_rows|].
  set (pos := sum_axis0 (astype_int <$> tp) (astype_int <$> fp)).
  assert (Hsum : forall (i : nat) (x y : float) (a b : Z),
             tp !! i = Some x -> fp !! i = Some y ->
             int_of_float x = Ok a -> int_of_float y = Ok b ->
             int64_min <= a <= int64_max -> int64_min <= b <= int64_max ->
             int64_min <= a + b <= int64_max ->
             pos !! i = Some (a + b)).
  { intros i x y a b Hx Hy Ha Hb Ra Rb Rab. subst pos.
    rewrite (positives_lookup tp fp i x y Hx Hy).
    rewrite (astype_int_in_range x a Ha Ra), (astype_int_in_range y b Hb Rb).
    rewrite int64_wrap_small; [done|]. unfold int64_min, int64_max in Rab. lia. }
  split; [exact Hsum|].
  intros step wall_time thresholds_in width i x y Hcm Hi Hx Hy Bx By Hlater.
  assert (Hposi : pos !! i = Some 0).
  { apply (Hsum i x y 0 0 Hx Hy); try (by apply int_of_float_fraction);
      unfold int64_min, int64_max; lia. }
  split; [done|].
  destruct (confusion_matrix_tensor_finite _ _ Hcm) as [Hshape Hfin].
  destruct (make_pr_entry_total step wall_time _ thresholds_in width Hshape Hfin)
    as [entry Hentry].
  destruct (make_pr_entry_inv _ _ _ _ _ Hentry)
    as (r0 & r1 & r2 & r3 & r4 & r5 & rest' & tps & fps & pos' & k
        & Hdata & Htps & Hfps & Hpos' & Hk & Htns & Hfns & Heq).
  injection Hdata as -> -> ->.
  rewrite positives_rows in Hpos'. injection Hpos' as <-. fold pos in Hk.
  destruct (has_shape_rows _ _ Hshape) as (? & ? & ? & ? & ? & ? & Hrows & L0 & L1 & _).
  injection Hrows as <- <- _ _ _ _.
  assert (Hlen : length pos = width) by (by apply length_positives).
  destruct (trim_end_index_spec pos) as (k' & Hk' & Hle & _ & _ & Hlast).
  rewrite Hk in Hk'. injection Hk' as Hkk. apply Nat2Z.inj in Hkk. subst k'.
  exists entry. split; [done|].
  assert (Hki : (k <= i)%nat).
  { destruct Hlast as [Hk1|(p & Hp & Hp0)]; [lia|].
    destruct (decide (k <= i)%nat) as [|Hgt]; [done|exfalso].
    destruct (decide (pred k = i)) as [Hpred|Hne].
    - rewrite Hpred, Hposi in Hp. by injection Hp as <-.
    - rewrite Hlater in Hp by lia. by injection Hp as <-. }
  rewrite Heq. cbn [true_positives precision]. rewrite !length_take. lia.
Qed.

(** C6.  The end-to-end example: the trailing column, of index 2, is
    dropped and every sequence keeps its first two elements. *)
Theorem make_pr_entry_example (step : Z) (wall_time : float) :
  _make_pr_entry step wall_time Samples.example_tensor Samples.example_thresholds
  = Ok {| wall_time := wall_time;
          step := step;
          precision := [Samples.decimal 71 100; Samples.decimal 75 100];
          recall := [Samples.of_Z 1; Samples.of_Z 1];
          true_positives := [5; 3];
          false_positives := [2; 1];
          true_negatives := [0; 1];
          false_negatives := [0; 0];
          thresholds := [Samples.decimal 33 100; Samples.decimal 67 100] |}.
Proof. reflexivity. Qed.
End WithPlatform.

Lemma make_pr_entry_trims_witness :
  confusion_matrix_tensor Samples.example_tensor 3 = true
  /\ (1 <= 3)%nat
  /\ Samples.example_tensor !! TRUE_POSITIVES_INDEX
     = Some [Samples.of_Z 5; Samples.of_Z 3; Samples.of_Z 0]
  /\ Samples.example_tensor !! FALSE_POSITIVES_INDEX
     = Some [Samples.of_Z 2; Samples.of_Z 1; Samples.of_Z 0]
  /\ stores_counts [Samples.of_Z 5; Samples.of_Z 3; Samples.of_Z 0] [5; 3; 0] = true
  /\ stores_counts [Samples.of_Z 2; Samples.of_Z 1; Samples.of_Z 0] [2; 1; 0] = true
  /\ exists entry : Entry,
       @_make_pr_entry Samples.x86_64 7 fone Samples.example_tensor Samples.example_thresholds
       = Ok entry
       /\ true_positives entry = [5; 3]
       /\ false_positives entry = [2; 1].
Proof.
  split; [reflexivity|]. split; [lia|]. split; [reflexivity|]. split; [reflexivity|].
  split; [reflexivity|]. split; [reflexivity|].
  destruct (@make_pr_entry_trims Samples.x86_64 7 fone Samples.example_tensor
              Samples.example_thresholds 3 _ _ [5; 3; 0] [2; 1; 0]
              eq_refl ltac:(lia) eq_refl eq_refl eq_refl eq_refl)
    as (entry & k & Hentry & _ & _ & _ & _ & _ & Htp & Hfp & _ & _ & Hmax & _).
  assert (Hk : k = 2%nat).
  { apply (Hmax 1%nat 3 1); [reflexivity|reflexivity|lia|].
    intros [|[|[|j]]] a b Hj Ha Hb; try lia; cbn in Ha, Hb; [|discriminate].
    injection Ha as <-. injection Hb as <-. lia. }
  exists entry. rewrite Htp, Hfp, Hk. auto.
Defined.

Lemma make_pr_entry_equal_lengths_witness :
  has_shape Samples.example_tensor 3 = true
  /\ length Samples.example_thresholds = 3%nat
  /\ finite_counts Samples.example_tensor = true
  /\ exists entry : Entry,
       @_make_pr_entry Samples.x86_64 7 fone Samples.example_tensor Samples.example_thresholds
       = Ok entry
       /\ length (thresholds entry) = length (precision entry).
Proof.
  split; [reflexivity|]. split; [reflexivity|]. split; [reflexivity|].
  destruct (@make_pr_entry_equal_lengths Samples.x86_64 7 fone Samples.example_tensor
              Samples.example_thresholds 3 eq_refl eq_refl) as [Hex Hlen].
  destruct (Hex eq_refl) as [entry Hentry]. exists entry. split; [done|].
  destruct (Hlen entry Hentry) as (pos & k & _ & _ & -> & _ & _ & _ & _ & _ & ->). done.
Defined.


(** Half a true positive and half a false positive add up to [1.0], and
    the column is trimmed all the same. *)
Lemma positives_truncate_first_witness :
  Samples.fractional_tensor !! TRUE_POSITIVES_INDEX = Some [Samples.of_Z 4; Samples.decimal 1 2]
  /\ Samples.fractional_tensor !! FALSE_POSITIVES_INDEX
     = Some [Samples.of_Z 1; Samples.decimal 1 2]
  /\ confusion_matrix_tensor Samples.fractional_tensor 2 = true
  /\ strictly_between_0_and_1 (Samples.decimal 1 2) = true
  /\ fltb fzero (SFadd prec emax (Samples.decimal 1 2) (Samples.decimal 1 2)) = true
  /\ exists entry : Entry,
       @_make_pr_entry Samples.x86_64 7 fone Samples.fractional_tensor Samples.example_thresholds
       = Ok entry
       /\ (length (true_positives entry) <= 1)%nat.
Proof.
  split; [reflexivity|]. split; [reflexivity|]. split; [reflexivity|].
  split; [reflexivity|]. split; [reflexivity|].
  destruct (@positives_truncate_first Samples.x86_64 Samples.fractional_tensor _ _ eq_refl eq_refl)
    as (pos & Hpos & _ & Htrim).
  injection Hpos as <-.
  destruct (Htrim 7 fone Samples.example_thresholds 2%nat 1%nat _ _
              eq_refl ltac:(lia) eq_refl eq_refl eq_refl eq_refl ltac:(intros; lia))
    as (_ & entry & Hentry & Hlen & _).
  exists entry. done.
Defined.

End EntryClaims.

(** ** The aggregation over runs *)

Module AggregatorFacts.

Lemma for_each_cons_ok {A S} (body : A -> S -> result S) (x : A) (xs : list A) (s r : S) :
  for_each (x :: xs) body s = Ok r <->
  exists s', body x s = Ok s' /\ for_each xs body s' = Ok r.
Proof.
  cbn [for_each]. destruct (body x s) as [s'|e]; cbn [bind].
  - split; [eauto|]. by intros (? & [= <-] & ?).
  - split; [discriminate|]. by intros (? & ? & ?).
Qed.

Lemma for_each_app_raise {A S} (body : A -> S -> result S) (pre post : list A) (x : A)
    (s : S) (e : exn) :
  (forall s', body x s' = Raise e) ->
  (exists r, for_each pre body s = Ok r) ->
  for_each (pre ++ x :: post) body s = Raise e.
Proof.
  intros Hx. revert s. induction pre as [|y pre IH]; intros s [r Hr].
  - cbn [app for_each]. by rewrite Hx.
  - apply for_each_cons_ok in Hr as (s' & Hy & Hr).
    cbn [app for_each]. rewrite Hy. cbn [bind]. apply IH. eauto.
Qed.

Lemma for_each_raise {A S} (body : A -> S -> result S) (l : list A) (x : A) (s : S) :
  x ∈ l -> (forall s', exists e, body x s' = Raise e) ->
  exists e, for_each l body s = Raise e.
Proof.
  intros Hin Hx. revert s. induction l as [|y l IH]; intros s; [by apply elem_of_nil in Hin|].
  cbn [for_each]. destruct (body y s) as [s'|e] eqn:Hy; cbn [bind]; [|eauto].
  apply elem_of_cons in Hin as [->|Hin]; [|by apply IH].
  destruct (Hx s) as [e He]. congruence.
Qed.

Section WithStore.
Context `{Platform, Host, !Multiplexer}.

Lemma run_entries_no_data (run tag : string) :
  Tensors run tag = Raise KeyError ->
  run_entries run tag = Raise (ValueError (no_curves_message run tag)).
Proof. intros Ht. unfold run_entries. rewrite Ht. reflexivity. Qed.

(** The loop of [pr_curves_impl], entered with the mapping [s]. *)
Lemma pr_curves_loop_ok (runs : list string) (tag : string)
    (s : gmap string (list Entry)) :
  (forall run, run ∈ runs -> exists es, run_entries run tag = Ok es) ->
  exists m : gmap string (list Entry),
    for_each runs
      (fun run response_mapping =>
         entries ← run_entries run tag; mret (<[run := entries]> response_mapping)) s
    = Ok m
    /\ (forall run es, run ∈ runs -> run_entries run tag = Ok es -> m !! run = Some es)
    /\ (forall run, run ∉ runs -> m !! run = s !! run).
Proof.
  revert s. induction runs as [|x xs IH]; intros s Hall.
  - exists s. split; [done|]. split; [intros ? ? Hin; by apply elem_of_nil in Hin|done].
  - destruct (Hall x ltac:(left)) as [es Hes].
    destruct (IH (<[x := es]> s)) as (m & Hm & Hin & Hout).
    { intros run Hrun. apply Hall. by right. }
    exists m. split; [|split].
    + cbn [for_each]. rewrite Hes. exact Hm.
    + intros run es' Hrun Hes'. destruct (decide (run ∈ xs)) as [Hxs|Hxs]; [by apply Hin|].
      apply elem_of_cons in Hrun as [->|?]; [|done].
      rewrite Hout by done. rewrite lookup_insert_eq. congruence.
    + intros run Hrun. apply not_elem_of_cons in Hrun as [Hne Hxs].
      rewrite Hout by done. by rewrite lookup_insert_ne.
Qed.
(** The first requested run that has no tensor events. *)
Lemma first_run_without_data (runs : list string) (tag : string) :
  (exists run, run ∈ runs /\ Tensors run tag = Raise KeyError) ->
  exists (pre post : list string) (run : string),
    runs = pre ++ run :: post
    /\ Tensors run tag = Raise KeyError
    /\ forall r, r ∈ pre -> Tensors r tag <> Raise KeyError.
Proof.
  induction runs as [|x xs IH]; intros (run & Hin & Hmissing); [by apply elem_of_nil in Hin|].
  destruct (Tensors x tag) as [evs|e] eqn:Hx.
  - apply elem_of_cons in Hin as [->|Hin]; [congruence|].
    destruct IH as (pre & post & run' & -> & Hrun' & Hpre); [eauto|].
    exists (x :: pre), post, run'. split; [done|]. split; [done|].
    intros r Hr. apply elem_of_cons in Hr as [->|Hr]; [congruence|by apply Hpre].
  - assert (e = KeyError \/ e <> KeyError) as [->|Hne]
      by (destruct e; ((by left) || (right; discriminate))).
    + exists [], xs, x. split; [done|]. split; [done|]. intros r Hr. by apply elem_of_nil in Hr.
    + apply elem_of_cons in Hin as [->|Hin]; [congruence|].
      destruct IH as (pre & post & run' & -> & Hrun' & Hpre); [eauto|].
      exists (x :: pre), post, run'. split; [done|]. split; [done|].
      intros r Hr. apply elem_of_cons in Hr as [->|Hr]; [congruence|by apply Hpre].
Qed.
End WithStore.

End AggregatorFacts.

(** ** Claims about the aggregation *)

Module AggregatorClaims.
Import AggregatorFacts.

Section WithStore.
Context `{Platform, Host, !Multiplexer}.

(** C3.  If some requested run has no tensor events for the tag,
    [pr_curves_impl] raises and returns no mapping, whatever the other
    runs hold; the run that lacks data raises the "no data" error
    naming it and the tag, and that is the error of the whole call
    when the runs listed before it were processed.  So, when every
    requested run that has tensor events is processed without error, the
    call raises the "no data" error naming a requested run that lacks
    data. *)
Theorem pr_curves_impl_all_or_nothing (runs : list string) (tag : string) :
  (exists run, run ∈ runs /\ Tensors run tag = Raise KeyError) ->
  (exists e, pr_curves_impl runs tag = Raise e)
  /\ (forall mapping, pr_curves_impl runs tag <> Ok mapping)
  /\ (forall (pre post : list string) (run : string),
        runs = pre ++ run :: post ->
        Tensors run tag = Raise KeyError ->
        (forall r, r ∈ pre -> exists es, run_entries r tag = Ok es) ->
        pr_curves_impl runs tag = Raise (ValueError (no_curves_message run tag)))
  /\ ((forall r, r ∈ runs -> Tensors r tag <> Raise KeyError ->
                 exists es, run_entries r tag = Ok es) ->
      exists run, run ∈ runs /\ Tensors run tag = Raise KeyError
                  /\ pr_curves_impl runs tag
                     = Raise (ValueError (no_curves_message run tag))).
Proof.
  intros Hex. pose proof Hex as (run & Hin & Hmissing).
  assert (Hraise : exists e, pr_curves_impl runs tag = Raise e).
  { unfold pr_curves_impl. apply (for_each_raise _ _ run); [done|].
    intros s'. rewrite (run_entries_no_data run tag Hmissing). eauto. }
  assert (Hfirst : forall (pre post : list string) (run' : string),
            runs = pre ++ run' :: post ->
            Tensors run' tag = Raise KeyError ->
            (forall r, r ∈ pre -> exists es, run_entries r tag = Ok es) ->
            pr_curves_impl runs tag = Raise (ValueError (no_curves_message run' tag))).
  { intros pre post run' -> Hmissing' Hpre. unfold pr_curves_impl.
    apply for_each_app_raise.
    - intros s'. by rewrite (run_entries_no_data run' tag Hmissing').
    - destruct (pr_curves_loop_ok pre tag ∅ Hpre) as (m & Hm & _). eauto. }
  split; [done|]. split; [|split; [exact Hfirst|]].
  - intros mapping. destruct Hraise as [e ->]. discriminate.
  - intros Hgood.
    destruct (first_run_without_data runs tag Hex) as (pre & post & run' & Hruns & Hrun' & Hpre).
    exists run'. split; [rewrite Hruns, elem_of_app; right; left|]. split; [done|].
    apply (Hfirst pre post run' Hruns Hrun'). intros r Hr. apply Hgood; [|by apply Hpre].
    rewrite Hruns, elem_of_app. by left.
Qed.

(** C10.  When every requested run yields its entries, the returned
    mapping has exactly one key per distinct requested run, a run
    listed several times included, and holds the entries of each. *)
Theorem pr_curves_impl_distinct_runs (runs : list string) (tag : string) :
  (forall run, run ∈ runs -> exists es, run_entries run tag = Ok es) ->
  exists mapping : gmap string (list Entry),
    pr_curves_impl runs tag = Ok mapping
    /\ dom mapping = list_to_set runs
    /\ size mapping = length (remove_dups runs)
    /\ (forall run es, run ∈ runs -> run_entries run tag = Ok es ->
          mapping !! run = Some es).
Proof.
  intros Hall. destruct (pr_curves_loop_ok runs tag ∅ Hall) as (m & Hm & Hin & Hout).
  assert (Hdom : dom m = list_to_set runs).
  { apply set_eq. intros run. rewrite elem_of_dom, elem_of_list_to_set. split.
    - intros [es Hes]. destruct (decide (run ∈ runs)) as [|Hnot]; [done|].
      rewrite Hout in Hes by done. by rewrite lookup_empty in Hes.
    - intros Hrun. destruct (Hall run Hrun) as [es Hes]. rewrite (Hin run es); eauto. }
  exists m. split; [exact Hm|]. split; [exact Hdom|]. split; [|exact Hin].
  assert (Hdups : list_to_set (C:=gset string) (remove_dups runs) = list_to_set runs).
  { apply set_eq. intros run. by rewrite !elem_of_list_to_set, elem_of_remove_dups. }
  rewrite <- size_dom, Hdom, <- Hdups.
  apply size_list_to_set, NoDup_remove_dups.
Qed.
End WithStore.

Lemma pr_curves_impl_all_or_nothing_witness :
  (exists run, run ∈ ["A"; "B"]%string
               /\ @Tensors _ Samples.store run "t" = Raise KeyError)
  /\ @pr_curves_impl Samples.x86_64 _ Samples.store ["A"; "B"]%string "t"
     = Raise (ValueError "No PR curves could be found for run 'B' and tag 't'").
Proof.
  assert (Hex : exists run, run ∈ ["A"; "B"]%string
                            /\ @Tensors _ Samples.store run "t" = Raise KeyError).
  { exists "B"%string. split; [apply elem_of_cons; right; apply elem_of_cons; by left|reflexivity]. }
  split; [exact Hex|].
  destruct (@pr_curves_impl_all_or_nothing Samples.x86_64 _ Samples.store
              ["A"; "B"]%string "t" Hex) as (_ & _ & Hfirst & _).
  apply (Hfirst ["A"%string] [] "B"%string eq_refl eq_refl).
  intros r Hr. apply list_elem_of_singleton in Hr as ->. eexists. reflexivity.
Defined.

Lemma pr_curves_impl_distinct_runs_witness :
  (forall run, run ∈ ["A"; "A"]%string ->
               exists es, @run_entries Samples.x86_64 _ Samples.store run "t" = Ok es)
  /\ exists mapping : gmap string (list Entry),
       @pr_curves_impl Samples.x86_64 _ Samples.store ["A"; "A"]%string "t" = Ok mapping
       /\ size mapping = 1%nat.
Proof.
  assert (Hall : forall run, run ∈ ["A"; "A"]%string ->
                   exists es, @run_entries Samples.x86_64 _ Samples.store run "t" = Ok es).
  { intros run Hrun. assert (run = "A"%string) as ->.
    { apply elem_of_cons in Hrun as [->|Hrun]; [done|]. by apply list_elem_of_singleton in Hrun. }
    eexists. reflexivity. }
  split; [exact Hall|].
  destruct (@pr_curves_impl_distinct_runs Samples.x86_64 _ Samples.store
              ["A"; "A"]%string "t" Hall) as (m & Hm & _ & Hsize & _).
  exists m. split; [exact Hm|]. rewrite Hsize. reflexivity.
Defined.

End AggregatorClaims.

(** ** The tag catalogue *)

Module TagFacts.
Import AggregatorFacts.

Section WithStore.
Context `{Host, !Multiplexer}.

Lemma empty_tags_lookup (runs : list string) (run : string) :
  empty_tags runs !! run = if decide (run ∈ runs) then Some ∅ else None.
Proof.
  unfold empty_tags.
  assert (Hgen : forall s : gmap string (gmap string TagInfo),
             foldl (fun result run => <[run := ∅]> result) s runs !! run
             = if decide (run ∈ runs) then Some ∅ else s !! run).
  { induction runs as [|x xs IH]; intros s; cbn [foldl].
    - destruct (decide (run ∈ [])) as [Hin|]; [by apply elem_of_nil in Hin|done].
    - rewrite IH. destruct (decide (run ∈ xs)) as [Hxs|Hxs].
      + rewrite decide_True; [done|by right].
      + destruct (decide (run = x)) as [->|Hne].
        * rewrite decide_True by left. by rewrite lookup_insert_eq.
        * rewrite decide_False by (rewrite elem_of_cons; tauto).
          by rewrite lookup_insert_ne. }
  rewrite Hgen. destruct (decide (run ∈ runs)); [done|apply lookup_empty].
Qed.

Lemma tag_info_ok (run tag : string) (md : SummaryMetadata_t) :
  SummaryMetadata run tag = Ok md -> tag_info run tag = Some (tag_entry md).
Proof. unfold tag_info. by intros ->. Qed.

Lemma tag_info_is_Some (run tag : string) :
  is_Some (tag_info run tag) <-> exists md, SummaryMetadata run tag = Ok md.
Proof.
  unfold tag_info. destruct (SummaryMetadata run tag) as [md|e].
  - split; eauto.
  - split; [by intros [? ?]|by intros [? ?]].
Qed.

Lemma set_tag_inv (run tag content : string) (r0 r1 : gmap string (gmap string TagInfo)) :
  set_tag run (tag, content) r0 = Ok r1 ->
  exists md tags,
    SummaryMetadata run tag = Ok md /\ r0 !! run = Some tags
    /\ r1 = <[run := <[tag := tag_entry md]> tags]> r0.
Proof.
  unfold set_tag. intros Hr. apply bind_ok_inv in Hr as (md & Hmd & Hr).
  destruct (r0 !! run) as [tags|]; [|discriminate].
  injection Hr as <-. eauto.
Qed.

(** The inner loop, over the tags of one run. *)
Lemma set_tag_loop_inv (run : string) (l : list (string * string))
    (r0 r1 : gmap string (gmap string TagInfo)) :
  for_each l (set_tag run) r0 = Ok r1 ->
  (forall run', run' <> run -> r1 !! run' = r0 !! run')
  /\ (forall tag, tag ∈ l.*1 -> is_Some (r0 !! run) /\ is_Some (tag_info run tag))
  /\ (r0 !! run = None -> r1 !! run = None)
  /\ (forall tags0, r0 !! run = Some tags0 ->
       exists tags1, r1 !! run = Some tags1
         /\ forall tag, tags1 !! tag
                        = if decide (tag ∈ l.*1) then tag_info run tag else tags0 !! tag).
Proof.
  revert r0. induction l as [|[tag content] l IH]; intros r0 Hr.
  - injection Hr as <-. split; [done|]. split; [intros ? Hin; by apply elem_of_nil in Hin|].
    split; [done|]. intros tags0 Hr0. exists tags0. split; [done|]. intros tag.
    destruct (decide (tag ∈ ([] : list (string * string)).*1)) as [Hin|]; [by apply elem_of_nil in Hin|done].
  - apply for_each_cons_ok in Hr as (rm & Hstep & Hrest).
    apply set_tag_inv in Hstep as (md & tags & Hmd & Htags & ->).
    destruct (IH _ Hrest) as (Hother & Hsome & _ & Hrun).
    destruct (Hrun (<[tag := tag_entry md]> tags)) as (tags1 & Htags1 & Hlook);
      [by rewrite lookup_insert_eq|].
    split; [|split; [|split]].
    + intros run' Hne. rewrite Hother by done. by rewrite lookup_insert_ne.
    + intros tag' Hin. cbn [fmap list_fmap fst] in Hin. apply elem_of_cons in Hin as [->|Hin].
      * split; [eauto|]. apply tag_info_is_Some. eauto.
      * split; [eauto|]. by apply Hsome.
    + intros Hnone. congruence.
    + intros tags0 Hr0. rewrite Htags in Hr0. injection Hr0 as <-.
      exists tags1. split; [done|]. intros tag'. rewrite Hlook.
      cbn [fmap list_fmap fst].
      destruct (decide (tag' ∈ l.*1)) as [Hin|Hnin].
      * rewrite decide_True; [done|by right].
      * destruct (decide (tag' = tag)) as [->|Hne].
        -- rewrite decide_True by left. rewrite lookup_insert_eq. symmetry. by apply tag_info_ok.
        -- rewrite decide_False by (rewrite elem_of_cons; tauto). by rewrite lookup_insert_ne.
Qed.

Lemma set_tag_loop_total (run : string) (l : list (string * string))
    (r0 : gmap string (gmap string TagInfo)) :
  l = [] \/ is_Some (r0 !! run) ->
  (forall tag, tag ∈ l.*1 -> exists md, SummaryMetadata run tag = Ok md) ->
  exists r1, for_each l (set_tag run) r0 = Ok r1.
Proof.
  revert r0. induction l as [|[tag content] l IH]; intros r0 Hdom Hmd; [by exists r0|].
  destruct Hdom as [|[tags Htags]]; [discriminate|].
  destruct (Hmd tag ltac:(left)) as [md Hmd0].
  cbn [for_each]. unfold set_tag at 1. rewrite Hmd0. py_simpl. rewrite Htags. py_simpl.
  apply IH.
  - right. rewrite lookup_insert_eq. eauto.
  - intros tag' Hin. apply Hmd. by right.
Qed.
Lemma listed_cons (run0 : string) (tc : gmap string string)
    (L : list (string * gmap string string)) (run tag : string) :
  listed ((run0, tc) :: L) run tag <->
  (run0 = run /\ tag ∈ (map_to_list tc).*1) \/ listed L run tag.
Proof.
  unfold listed. rewrite Exists_cons. cbn [fst snd].
  assert (Htc : is_Some (tc !! tag) <-> tag ∈ (map_to_list tc).*1).
  { rewrite list_elem_of_fmap. split.
    - intros [c Hc]. exists (tag, c). split; [done|]. by apply elem_of_map_to_list.
    - intros ([tag' c] & -> & Hin). apply elem_of_map_to_list in Hin. eauto. }
  rewrite Htc. done.
Qed.

Lemma listed_map_to_list (mapping : gmap string (gmap string string)) (run tag : string) :
  listed (map_to_list mapping) run tag <-> has_tag mapping run tag.
Proof.
  unfold listed, has_tag. rewrite Exists_exists. split.
  - intros ([run' tc] & Hin & <- & [c Hc]). apply elem_of_map_to_list in Hin. eauto.
  - intros (tc & c & Hrun & Htag). exists (run, tc).
    split; [by apply elem_of_map_to_list|]. cbn. eauto.
Qed.

#[local] Instance listed_dec L run tag : Decision (listed L run tag).
Proof. unfold listed. apply _. Defined.

(** The outer loop, over the runs of the plugin. *)
Lemma set_tags_loop_inv (L : list (string * gmap string string))
    (r0 r : gmap string (gmap string TagInfo)) :
  for_each L set_tags r0 = Ok r ->
  (forall run tag, listed L run tag -> is_Some (r0 !! run) /\ is_Some (tag_info run tag))
  /\ (forall run, r0 !! run = None -> r !! run = None)
  /\ (forall run tags0, r0 !! run = Some tags0 ->
       exists tags1, r !! run = Some tags1
         /\ forall tag, tags1 !! tag
                        = if decide (listed L run tag) then tag_info run tag
                          else tags0 !! tag).
Proof.
  revert r0. induction L as [|[run0 tc] L IH]; intros r0 Hr.
  - injection Hr as <-. split; [intros ? ? Hl; by apply Exists_nil in Hl|].
    split; [done|]. intros run tags0 Hr0. exists tags0. split; [done|]. intros tag.
    rewrite decide_False; [done|]. intros Hl. by apply Exists_nil in Hl.
  - apply for_each_cons_ok in Hr as (rm & Hstep & Hrest). cbn [set_tags] in Hstep.
    destruct (set_tag_loop_inv _ _ _ _ Hstep) as (Hother & Hsome & Hnone & Hrun).
    destruct (IH _ Hrest) as (Hsome' & Hnone' & Hrun').
    assert (Hpres : forall run, is_Some (rm !! run) -> is_Some (r0 !! run)).
    { intros run Hrm. destruct (decide (run = run0)) as [->|Hne].
      - destruct (r0 !! run0) eqn:E; [eauto|]. rewrite Hnone in Hrm by done. by destruct Hrm.
      - by rewrite Hother in Hrm. }
    split; [|split].
    + intros run tag Hl. apply listed_cons in Hl as [[<- Hin]|Hl].
      * by apply Hsome.
      * destruct (Hsome' _ _ Hl) as [Hrm Hinfo]. split; [by apply Hpres|done].
    + intros run Hr0. apply Hnone'. destruct (decide (run = run0)) as [->|Hne].
      * by apply Hnone.
      * by rewrite Hother.
    + intros run tags0 Hr0.
      assert (Hmid : exists tagsm, rm !! run = Some tagsm
                /\ forall tag, tagsm !! tag
                     = if decide (run0 = run /\ tag ∈ (map_to_list tc).*1)
                       then tag_info run tag else tags0 !! tag).
      { destruct (decide (run = run0)) as [->|Hne].
        - destruct (Hrun _ Hr0) as (tagsm & Hm & Hlook). exists tagsm. split; [done|].
          intros tag. rewrite Hlook.
          destruct (decide (tag ∈ (map_to_list tc).*1)).
          + by rewrite decide_True.
          + rewrite decide_False; [done|tauto].
        - exists tags0. split; [by rewrite Hother|]. intros tag.
          rewrite decide_False; [done|]. intros [-> _]. done. }
      destruct Hmid as (tagsm & Hm & Hlookm).
      destruct (Hrun' _ _ Hm) as (tags1 & H1 & Hlook1).
      exists tags1. split; [done|]. intros tag. rewrite Hlook1, Hlookm.
      destruct (decide (listed L run tag)) as [Hl|Hnl].
      * rewrite decide_True; [done|]. apply listed_cons. by right.
      * destruct (decide (run0 = run /\ tag ∈ (map_to_list tc).*1)) as [Hh|Hnh].
        -- rewrite decide_True; [done|]. apply listed_cons. by left.
        -- rewrite decide_False; [done|]. rewrite listed_cons. tauto.
Qed.

Lemma set_tags_loop_total (L : list (string * gmap string string))
    (r0 : gmap string (gmap string TagInfo)) :
  (forall run tag, listed L run tag ->
     is_Some (r0 !! run) /\ exists md, SummaryMetadata run tag = Ok md) ->
  exists r, for_each L set_tags r0 = Ok r.
Proof.
  revert r0. induction L as [|[run0 tc] L IH]; intros r0 Hall; [by exists r0|].
  destruct (set_tag_loop_total run0 (map_to_list tc) r0) as [rm Hrm].
  - destruct (map_to_list tc) as [|[tag c] l] eqn:E; [by left|right].
    apply (Hall run0 tag). apply listed_cons. left. split; [done|].
    rewrite E. cbn. left.
  - intros tag Hin. apply (Hall run0 tag). apply listed_cons. by left.
  - destruct (set_tag_loop_inv _ _ _ _ Hrm) as (Hother & _ & _ & Hrun).
    destruct (IH rm) as [r Hr].
    + intros run tag Hl. destruct (Hall run tag) as [[tags0 Hr0] Hmd];
        [apply listed_cons; by right|]. split; [|done].
      destruct (decide (run = run0)) as [->|Hne].
      * destruct (Hrun _ Hr0) as (tags1 & -> & _). eauto.
      * rewrite Hother by done. eauto.
    + exists r. cbn [for_each set_tags]. rewrite Hrm. exact Hr.
Qed.
End WithStore.

End TagFacts.

(** ** Claims about the tag catalogue and the routes *)

Module ServiceClaims.
Import AggregatorFacts TagFacts.

Section WithStore.
Context `{Host, !Multiplexer}.

(** C8.  The mapping returned by [tags_impl] has an entry for exactly
    the runs of the store; a run without tags of the plugin is mapped
    to the empty mapping; and each (run, tag) that carries data of the
    plugin holds the display name and the sanitized description of its
    metadata.  [tags_impl] returns whenever the runs that carry data
    are runs of the store and their tags have metadata. *)
Theorem tags_impl_spec :
  ((forall run tag,
      has_tag (PluginRunToTagToContent PLUGIN_NAME) run tag ->
      run ∈ Runs /\ exists md, SummaryMetadata run tag = Ok md) ->
   exists result, tags_impl = Ok result)
  /\ (forall result : gmap string (gmap string TagInfo),
       tags_impl = Ok result ->
       (forall run, run ∈ Runs <-> is_Some (result !! run))
       /\ (forall run tags,
            result !! run = Some tags ->
            (forall tag, ~ has_tag (PluginRunToTagToContent PLUGIN_NAME) run tag) ->
            tags = ∅)
       /\ (forall run tag,
            has_tag (PluginRunToTagToContent PLUGIN_NAME) run tag ->
            exists tags md,
              result !! run = Some tags
              /\ SummaryMetadata run tag = Ok md
              /\ tags !! tag
                 = Some {| displayName := display_name md;
                           description := markdown_to_safe_html (summary_description md) |})
       /\ (forall run tags tag,
            result !! run = Some tags -> is_Some (tags !! tag) ->
            has_tag (PluginRunToTagToContent PLUGIN_NAME) run tag)).
Proof.
  set (mapping := PluginRunToTagToContent PLUGIN_NAME). split.
  - intros Hcons. unfold tags_impl. fold mapping. apply set_tags_loop_total.
    intros run tag Hl. apply listed_map_to_list in Hl.
    destruct (Hcons run tag Hl) as [Hrun Hmd]. split; [|done].
    rewrite empty_tags_lookup, decide_True by done. eauto.
  - intros result Hres. unfold tags_impl in Hres. fold mapping in Hres.
    destruct (set_tags_loop_inv _ _ _ Hres) as (Hsome & Hnone & Hrun).
    assert (Hin : forall run tags, result !! run = Some tags ->
              run ∈ Runs
              /\ forall tag, tags !! tag
                   = if decide (listed (map_to_list mapping) run tag)
                     then tag_info run tag else None).
    { intros run tags Htags. destruct (decide (run ∈ Runs)) as [Hr|Hr].
      - split; [done|]. destruct (Hrun run ∅) as (tags1 & H1 & Hlook).
        { by rewrite empty_tags_lookup, decide_True. }
        rewrite Htags in H1. injection H1 as <-. intros tag. rewrite Hlook.
        destruct (decide (listed (map_to_list mapping) run tag)); [done|apply lookup_empty].
      - rewrite Hnone in Htags; [done|]. by rewrite empty_tags_lookup, decide_False. }
    split; [|split; [|split]].
    + intros run. split.
      * intros Hr. destruct (Hrun run ∅) as (tags1 & H1 & _); [|eauto].
        by rewrite empty_tags_lookup, decide_True.
      * intros [tags Htags]. by apply (Hin run tags).
    + intros run tags Htags Hnotag. destruct (Hin _ _ Htags) as [_ Hlook].
      apply map_empty. intros tag. rewrite Hlook.
      rewrite decide_False; [done|]. rewrite listed_map_to_list. apply Hnotag.
    + intros run tag Htag. apply listed_map_to_list in Htag.
      destruct (Hsome _ _ Htag) as [[tags0 Hr0] Hinfo].
      destruct (Hrun _ _ Hr0) as (tags & Htags & Hlook).
      apply tag_info_is_Some in Hinfo as [md Hmd].
      exists tags, md. split; [done|]. split; [done|].
      rewrite Hlook, decide_True by done. by apply tag_info_ok.
    + intros run tags tag Htags [info Hinfo]. destruct (Hin _ _ Htags) as [_ Hlook].
      rewrite Hlook in Hinfo. apply listed_map_to_list.
      destruct (decide (listed (map_to_list mapping) run tag)); [done|discriminate].
Qed.
End WithStore.

Lemma tags_impl_spec_witness :
  (forall run tag,
     has_tag (@PluginRunToTagToContent _ Samples.store (@PLUGIN_NAME Samples.host)) run tag ->
     run ∈ @Runs _ Samples.store
     /\ exists md, @SummaryMetadata _ Samples.store run tag = Ok md)
  /\ exists result : gmap string (gmap string TagInfo),
       @tags_impl _ Samples.store = Ok result
       /\ result !! "B"%string = Some ∅
       /\ exists tags, result !! "A"%string = Some tags
            /\ tags !! "t"%string
               = Some {| displayName := "curve"; description := "<p>a curve</p>" |}.
Proof.
  assert (Hcons : forall run tag,
            has_tag (@PluginRunToTagToContent _ Samples.store (@PLUGIN_NAME Samples.host)) run tag ->
            run ∈ @Runs _ Samples.store
            /\ exists md, @SummaryMetadata _ Samples.store run tag = Ok md).
  { intros run tag (tc & c & Hrun & Htag). cbn in Hrun.
    apply lookup_singleton_Some in Hrun as [<- <-].
    apply lookup_singleton_Some in Htag as [<- <-].
    split; [left|]. eexists. reflexivity. }
  assert (HtagA : has_tag (@PluginRunToTagToContent _ Samples.store (@PLUGIN_NAME Samples.host))
                    "A" "t").
  { exists {[ "t"%string := "content"%string ]}, "content"%string.
    split; [apply lookup_singleton_eq|apply lookup_singleton_eq]. }
  split; [exact Hcons|].
  destruct (@tags_impl_spec _ Samples.store) as [Hex Hspec].
  destruct (Hex Hcons) as [result Hres]. exists result. split; [exact Hres|].
  destruct (Hspec result Hres) as (Hruns & Hempty & Htags & _).
  split.
  - destruct (proj1 (Hruns "B"%string)) as [tags HB]; [right; left|].
    rewrite HB. f_equal. apply (Hempty _ _ HB).
    intros tag (tc & c & Hrun & _). cbn in Hrun.
    apply lookup_singleton_Some in Hrun as [Hne _]. discriminate.
  - destruct (Htags _ _ HtagA) as (tags & md & HA & Hmd & Hinfo).
    exists tags. split; [done|]. rewrite Hinfo. cbn in Hmd. injection Hmd as <-. reflexivity.
Defined.

Section WithService.
Context `{Platform, Host, !Multiplexer, HttpUtil}.

(** C7, on the code.  A request without a [run] parameter is answered
    by [Respond] called with three arguments: the message, then [400]
    where the content type is expected, and no status code. *)
Theorem pr_curves_route_no_runs (request : Request) :
  getlist request "run" = [] ->
  pr_curves_route request
  = Ok (Respond request (Text "No runs provided when fetching PR curve data")
          (PyInt 400) None).
Proof. intros Hruns. unfold pr_curves_route. rewrite Hruns. reflexivity. Qed.

(** The sibling call of the same route, for a run without data: the
    content type and the status code are each in their place. *)
Lemma pr_curves_route_no_data (request : Request) (tag msg : string) :
  getlist request "run" <> [] ->
  get request "tag" = Some tag -> tag <> EmptyString ->
  pr_curves_impl (getlist request "run") tag = Raise (ValueError msg) ->
  pr_curves_route request
  = Ok (Respond request (Text msg) (PyStr "text/plain") (Some 400)).
Proof.
  intros Hruns Htag Hne Himpl. unfold pr_curves_route.
  rewrite bool_decide_eq_false_2 by done. rewrite Htag.
  destruct tag as [|c tag]; [done|]. rewrite Himpl. reflexivity.
Qed.
End WithService.

Lemma pr_curves_route_no_runs_witness :
  getlist Samples.request_without_run "run" = []
  /\ @pr_curves_route Samples.x86_64 _ Samples.store Samples.http Samples.request_without_run
     = Ok (Samples.request_without_run,
           Text "No runs provided when fetching PR curve data", PyInt 400, None).
Proof.
  split; [reflexivity|].
  apply (@pr_curves_route_no_runs Samples.x86_64 _ Samples.store Samples.http). reflexivity.
Defined.

End ServiceClaims.

(** ** Further properties of the threshold axis *)

Module ThresholdEdges.
Import Binary64 Thresholds.

(** X1.  For [num_thresholds <= 0] the range is empty: the list is empty
    and nothing is divided, not even by zero. *)
Theorem compute_thresholds_nonpositive (num_thresholds : Z) :
  num_thresholds <= 0 -> _compute_thresholds num_thresholds = Ok [].
Proof.
  intros Hn. unfold _compute_thresholds, range.
  replace (Z.to_nat (num_thresholds + 1 - 1)) with 0%nat by lia. reflexivity.
Qed.

Lemma compute_thresholds_nonpositive_witness :
  0 <= 0 /\ _compute_thresholds 0 = Ok [].
Proof. split; [lia|]. apply (compute_thresholds_nonpositive 0). lia. Defined.

Lemma SFltb_SFleb (x y : float) : SFltb x y = true -> SFleb x y = true.
Proof. unfold SFltb, SFleb. by destruct (SFcompare x y) as [[]|]. Qed.

(** X2.  For [1 <= num_thresholds <= 2^53] every threshold [t] satisfies
    [0 < t <= 1.0]. *)
Theorem compute_thresholds_in_unit_interval (num_thresholds : Z) (ts : list float) (t : float) :
  1 <= num_thresholds <= 2 ^ 53 ->
  _compute_thresholds num_thresholds = Ok ts -> t ∈ ts ->
  fltb fzero t = true /\ SFleb t fone = true.
Proof.
  intros Hn Hts Ht. set (n := num_thresholds) in *.
  destruct (binary_normalize_exact n Hn) as (b & en & Hfn & Hdb & Hen & Hbn).
  pose proof (threshold_quotient n b en Hn Hfn Hdb Hen Hbn) as Hq.
  apply list_elem_of_lookup in Ht as [i Hi].
  destruct (list_comp_lookup _ _ _ _ _ Hts Hi) as (v & Hv & Hfv).
  apply range_lookup_inv in Hv as [_ Hv].
  destruct (Hq v ltac:(lia)) as (M & E & HM & Q). rewrite Hfv in HM. injection HM as ->.
  split; [reflexivity|].
  destruct (Z.eq_dec v n) as [->|Hne].
  - rewrite (threshold_last n b en Hfn) in Hfv.
    assert (Hone : fone = S754_finite false M E) by congruence. by rewrite <- Hone.
  - destruct (Hq n ltac:(lia)) as (M' & E' & HM' & Q').
    rewrite (threshold_last n b en Hfn) in HM'.
    assert (Hone : fone = S754_finite false M' E') by congruence.
    apply SFltb_SFleb. rewrite Hone.
    eapply (quotient_lt n b en); [..|exact Q|exact Q']; (eassumption || lia).
Qed.

Lemma compute_thresholds_in_unit_interval_witness :
  1 <= 3 <= 2 ^ 53
  /\ _compute_thresholds 3 = Ok [Samples.decimal 1 3; Samples.decimal 2 3; fone]
  /\ Samples.decimal 2 3 ∈ [Samples.decimal 1 3; Samples.decimal 2 3; fone]
  /\ fltb fzero (Samples.decimal 2 3) = true /\ SFleb (Samples.decimal 2 3) fone = true.
Proof.
  assert (Hin : Samples.decimal 2 3 ∈ [Samples.decimal 1 3; Samples.decimal 2 3; fone])
    by (right; left).
  split; [lia|]. split; [reflexivity|]. split; [exact Hin|].
  apply (compute_thresholds_in_unit_interval 3 _ _ ltac:(lia) eq_refl Hin).
Defined.

End ThresholdEdges.

(** ** Further properties of the curve entry builder *)

Module EntryEdges.
Import EntryFacts.

Lemma trim_end_index_take (positives : list Z) (k : nat) :
  trim_end_index positives = Ok (Z.of_nat k) ->
  trim_end_index (take k positives) = Ok (Z.of_nat k).
Proof.
  intros Hk. destruct (trim_end_index_spec positives) as (k' & Hk' & Hle & _ & _ & Hlast).
  rewrite Hk in Hk'. injection Hk' as Hkk. apply Nat2Z.inj in Hkk. subst k'.
  unfold trim_end_index. rewrite length_take_le by done.
  destruct (Z.gtb_spec (Z.of_nat k - 1) 0) as [Hgt|Hsmall].
  - destruct Hlast as [Hk1|(p & Hp & Hne)]; [lia|].
    replace (Z.to_nat (Z.of_nat k - 1)) with (S (pred (pred k))) by lia.
    cbn [trim_loop]. replace (S (pred (pred k))) with (pred k) by lia.
    rewrite (getitem_lookup _ _ p) by (rewrite lookup_take_lt by lia; done).
    py_simpl. destruct (Z.eqb_spec p 0); [done|]. py_simpl. f_equal. lia.
  - py_simpl. f_equal. lia.
Qed.

Lemma take_length_take {A} (l : list A) (k : nat) : take (length (take k l)) l = take k l.
Proof.
  rewrite length_take. destruct (Nat.min_spec k (length l)) as [[_ ->]|[Hle ->]]; [done|].
  by rewrite !take_ge by lia.
Qed.

Section WithPlatform.
Context `{Platform}.

Lemma positives_take (r0 r1 : list float) (k : nat) :
  sum_axis0 (astype_int <$> take k r0) (astype_int <$> take k r1)
  = take k (sum_axis0 (astype_int <$> r0) (astype_int <$> r1)).
Proof. unfold sum_axis0. by rewrite !fmap_take, zip_with_take. Qed.

(** The end index is the length of the count sequences of the entry. *)
Lemma end_index_length (r0 r1 : list float) (tps : list Z) (k : nat) :
  list_comp int_of_float r0 = Ok tps ->
  trim_end_index (sum_axis0 (astype_int <$> r0) (astype_int <$> r1)) = Ok (Z.of_nat k) ->
  length (take k tps) = k.
Proof.
  intros Htps Hk.
  destruct (trim_end_index_spec (sum_axis0 (astype_int <$> r0) (astype_int <$> r1)))
    as (k' & Hk' & Hle & _).
  rewrite Hk in Hk'. injection Hk' as Hkk. apply Nat2Z.inj in Hkk. subst k'.
  apply list_comp_length in Htps. unfold sum_axis0 in Hle.
  rewrite length_zip_with, !length_fmap in Hle. rewrite length_take. lia.
Qed.

(** X3.  Trimming is idempotent: building the entry again from the rows
    and thresholds cut to the length of the entry returns the same
    entry. *)
Theorem make_pr_entry_retrim (step : Z) (wall_time : float) (data_array : ndarray)
    (thresholds_in : list float) (entry : Entry) :
  _make_pr_entry step wall_time data_array thresholds_in = Ok entry ->
  _make_pr_entry step wall_time
    (take (length (true_positives entry)) <$> data_array)
    (take (length (true_positives entry)) thresholds_in)
  = Ok entry.
Proof.
  intros Hentry.
  destruct (make_pr_entry_inv _ _ _ _ _ Hentry)
    as (r0 & r1 & r2 & r3 & r4 & r5 & rest & tps & fps & pos & k
        & -> & Htps & Hfps & Hpos & Hk & Htns & Hfns & Heq).
  rewrite positives_rows in Hpos. injection Hpos as <-.
  assert (Hlen : length (true_positives entry) = k).
  { rewrite Heq. cbn [true_positives]. by apply (end_index_length r0 r1). }
  rewrite Hlen. cbn [fmap list_fmap]. unfold _make_pr_entry.
  cbn [getitem lookup list_lookup TRUE_POSITIVES_INDEX FALSE_POSITIVES_INDEX
         TRUE_NEGATIVES_INDEX FALSE_NEGATIVES_INDEX PRECISION_INDEX RECALL_INDEX].
  py_simpl. rewrite (list_comp_take _ _ _ k Htps). py_simpl.
  rewrite (list_comp_take _ _ _ k Hfps). py_simpl.
  rewrite positives_rows. py_simpl. rewrite positives_take.
  rewrite (trim_end_index_take _ _ Hk). py_simpl.
  rewrite !slice_to_nonneg by lia. rewrite Nat2Z.id, !take_idemp.
  rewrite Htns. py_simpl. rewrite Hfns. py_simpl. rewrite Heq. reflexivity.
Qed.

(** X4.  A column whose positives are not zero, of either sign, is never
    trimmed. *)
Theorem make_pr_entry_keeps_nonzero (step : Z) (wall_time : float) (data_array : ndarray)
    (thresholds_in : list float) (entry : Entry) (pos : list Z) (i : nat) (p : Z) :
  _make_pr_entry step wall_time data_array thresholds_in = Ok entry ->
  positives data_array = Ok pos -> pos !! i = Some p -> p <> 0 ->
  (i < length (true_positives entry))%nat /\ (i < length (false_positives entry))%nat.
Proof.
  intros Hentry Hpos Hp Hne.
  destruct (make_pr_entry_inv _ _ _ _ _ Hentry)
    as (r0 & r1 & r2 & r3 & r4 & r5 & rest & tps & fps & pos' & k
        & -> & Htps & Hfps & Hpos' & Hk & Htns & Hfns & Heq).
  rewrite Hpos in Hpos'. injection Hpos' as <-.
  rewrite positives_rows in Hpos. injection Hpos as Hpos.
  destruct (trim_end_index_spec pos) as (k' & Hk' & Hle & _ & Hzero & _).
  rewrite Hk in Hk'. injection Hk' as Hkk. apply Nat2Z.inj in Hkk. subst k'.
  assert (Hik : (i < k)%nat).
  { destruct (decide (i < k)%nat) as [|Hge]; [done|exfalso].
    apply lookup_lt_Some in Hp as Hi. rewrite Hzero in Hp by lia. congruence. }
  apply list_comp_length in Htps, Hfps.
  rewrite <- Hpos in Hle. unfold sum_axis0 in Hle.
  rewrite length_zip_with, !length_fmap in Hle.
  rewrite Heq. cbn [true_positives false_positives]. rewrite !length_take. lia.
Qed.
Lemma list_comp_int_of_float_raise (row : list float) :
  forallb is_finite row = false ->
  exists e, list_comp int_of_float row = Raise e
            /\ (e = ValueError "cannot convert float NaN to integer" \/ e = OverflowError).
Proof.
  induction row as [|x row IH]; [discriminate|]. cbn [forallb list_comp].
  destruct x as [s|s| |s m e]; cbn [is_finite int_of_float bind andb].
  - intros Hrow. destruct (IH Hrow) as (e & -> & He). eauto.
  - eauto.
  - eauto.
  - intros Hrow. destruct (IH Hrow) as (e' & -> & He). eauto.
Qed.

(** X5.  A NaN or an infinity anywhere in the true-positive or the
    false-positive row makes [_make_pr_entry] raise, whether or not its
    column would have been trimmed: both rows are converted whole, before
    the trim. *)
Theorem make_pr_entry_rejects_bad_positives (step : Z) (wall_time : float)
    (data_array : ndarray) (thresholds_in : list float) (tp fp : list float) :
  data_array !! TRUE_POSITIVES_INDEX = Some tp ->
  data_array !! FALSE_POSITIVES_INDEX = Some fp ->
  forallb is_finite tp && forallb is_finite fp = false ->
  exists e, _make_pr_entry step wall_time data_array thresholds_in = Raise e
            /\ (e = ValueError "cannot convert float NaN to integer" \/ e = OverflowError).
Proof.
  intros Htp Hfp Hbad. unfold _make_pr_entry.
  rewrite (getitem_lookup _ _ _ Htp). py_simpl.
  destruct (forallb is_finite tp) eqn:Ftp.
  - destruct (list_comp_int_of_float_total tp Ftp) as [tps ->]. py_simpl.
    rewrite (getitem_lookup _ _ _ Hfp). py_simpl.
    destruct (list_comp_int_of_float_raise fp Hbad) as (e & -> & He). eauto.
  - destruct (list_comp_int_of_float_raise tp Ftp) as (e & -> & He). eauto.
Qed.

(** X6.  The true-negative and false-negative rows are converted after
    the trim: a NaN or an infinity they hold in a trimmed column is never
    looked at. *)
Theorem make_pr_entry_ignores_trimmed_negatives (step : Z) (wall_time : float)
    (data_array : ndarray) (thresholds_in : list float) (width : nat)
    (pos : list Z) (end_index : nat) (tn fn : list float) :
  has_shape data_array width = true ->
  forallb (forallb is_finite) (take 2 data_array) = true ->
  positives data_array = Ok pos ->
  trim_end_index pos = Ok (Z.of_nat end_index) ->
  data_array !! TRUE_NEGATIVES_INDEX = Some tn ->
  data_array !! FALSE_NEGATIVES_INDEX = Some fn ->
  forallb is_finite (take end_index tn) = true ->
  forallb is_finite (take end_index fn) = true ->
  exists entry, _make_pr_entry step wall_time data_array thresholds_in = Ok entry.
Proof.
  intros Hshape Hfin Hpos Hk Htn Hfn Ftn Ffn.
  destruct (has_shape_rows _ _ Hshape) as (r0 & r1 & r2 & r3 & r4 & r5 & -> & _).
  cbn in Htn, Hfn. injection Htn as <-. injection Hfn as <-.
  cbn [take forallb] in Hfin. rewrite !andb_true_iff in Hfin. destruct Hfin as (F0 & F1 & _).
  destruct (list_comp_int_of_float_total r0 F0) as [tps Htps].
  destruct (list_comp_int_of_float_total r1 F1) as [fps Hfps].
  destruct (list_comp_int_of_float_total _ Ftn) as [tns Htns].
  destruct (list_comp_int_of_float_total _ Ffn) as [fns Hfns].
  unfold _make_pr_entry.
  cbn [getitem lookup list_lookup TRUE_POSITIVES_INDEX FALSE_POSITIVES_INDEX
         TRUE_NEGATIVES_INDEX FALSE_NEGATIVES_INDEX PRECISION_INDEX RECALL_INDEX].
  py_simpl. rewrite Htps. py_simpl. rewrite Hfps. py_simpl.
  rewrite Hpos. py_simpl. rewrite Hk. py_simpl.
  rewrite !slice_to_nonneg by lia. rewrite Nat2Z.id.
  rewrite Htns. py_simpl. rewrite Hfns. py_simpl. eauto.
Qed.

(** X7.  A tensor of fewer than six rows, its counts finite, is refused
    with [IndexError]. *)
Theorem make_pr_entry_missing_rows (step : Z) (wall_time : float) (data_array : ndarray)
    (thresholds_in : list float) :
  (length data_array < 6)%nat -> finite_counts data_array = true ->
  _make_pr_entry step wall_time data_array thresholds_in = Raise IndexError.
Proof.
  intros Hlen Hfin. unfold finite_counts in Hfin.
  destruct data_array as [|r0 rest]; [reflexivity|].
  cbn [take forallb] in Hfin. apply andb_true_iff in Hfin as [F0 Hfin].
  destruct (list_comp_int_of_float_total r0 F0) as [tps Htps].
  unfold _make_pr_entry.
  cbn [getitem lookup list_lookup TRUE_POSITIVES_INDEX]. py_simpl. rewrite Htps. py_simpl.
  destruct rest as [|r1 rest]; [reflexivity|].
  cbn [take forallb] in Hfin. apply andb_true_iff in Hfin as [F1 Hfin].
  destruct (list_comp_int_of_float_total r1 F1) as [fps Hfps].
  cbn [getitem lookup list_lookup FALSE_POSITIVES_INDEX]. py_simpl. rewrite Hfps. py_simpl.
  rewrite positives_rows. py_simpl.
  destruct (trim_end_index_spec (sum_axis0 (astype_int <$> r0) (astype_int <$> r1)))
    as (k & -> & _). py_simpl.
  destruct rest as [|r2 [|r3 [|r4 [|r5 rest]]]]; try reflexivity.
  cbn [length] in Hlen. lia.
Qed.

(** X8.  On a tensor of width zero nothing is kept: every sequence of the
    entry is empty, the thresholds included. *)
Theorem make_pr_entry_width_zero (step : Z) (wall_time : float) (data_array : ndarray)
    (thresholds_in : list float) :
  has_shape data_array 0 = true ->
  _make_pr_entry step wall_time data_array thresholds_in
  = Ok {| wall_time := wall_time; step := step;
          precision := []; recall := [];
          true_positives := []; false_positives := [];
          true_negatives := []; false_negatives := [];
          thresholds := [] |}.
Proof.
  intros Hshape.
  destruct (has_shape_rows _ _ Hshape)
    as (r0 & r1 & r2 & r3 & r4 & r5 & -> & L0 & L1 & L2 & L3 & L4 & L5).
  apply nil_length_inv in L0, L1, L2, L3, L4, L5. subst.
  reflexivity.
Qed.

(** X9.  The thresholds are cut like the rows and never padded or
    checked: a list of thresholds shorter than the entry is passed
    through whole. *)
Theorem make_pr_entry_thresholds (step : Z) (wall_time : float) (data_array : ndarray)
    (thresholds_in : list float) (entry : Entry) :
  _make_pr_entry step wall_time data_array thresholds_in = Ok entry ->
  thresholds entry = take (length (true_positives entry)) thresholds_in
  /\ ((length thresholds_in <= length (true_positives entry))%nat ->
      thresholds entry = thresholds_in).
Proof.
  intros Hentry.
  destruct (make_pr_entry_inv _ _ _ _ _ Hentry)
    as (r0 & r1 & r2 & r3 & r4 & r5 & rest & tps & fps & pos & k
        & -> & Htps & Hfps & Hpos & Hk & Htns & Hfns & Heq).
  rewrite positives_rows in Hpos. injection Hpos as <-.
  assert (Hlen : length (true_positives entry) = k).
  { rewrite Heq. cbn [true_positives]. by apply (end_index_length r0 r1). }
  assert (Hth : thresholds entry = take k thresholds_in) by (by rewrite Heq).
  rewrite Hlen. split; [done|]. intros Hshort. by rewrite Hth, take_ge.
Qed.

(** [int(float(n)) = n] for the integers a float holds exactly. *)
Lemma int_of_float_of_int (n : Z) :
  0 <= n <= 2 ^ 53 -> exists x, float_of_int n = Ok x /\ int_of_float x = Ok n.
Proof.
  intros Hn. destruct (Z.eq_dec n 0) as [->|Hne]; [by exists fzero|].
  destruct (Binary64.binary_normalize_exact n ltac:(lia)) as (a & e & Hfn & _ & He & Ha).
  exists (S754_finite false a e). unfold float_of_int. rewrite Hfn. split; [done|].
  cbn [int_of_float cond_Zopp]. f_equal. unfold trunc_mag.
  destruct (Z.le_gt_cases 0 e) as [Hpos|Hneg].
  - rewrite Z.shiftl_mul_pow2 by lia. rewrite Z.pow_add_r, Z.mul_assoc in Ha by lia.
    apply Z.mul_cancel_r in Ha; [done|lia].
  - rewrite Z.shiftl_div_pow2 by lia.
    assert (H52 : 2 ^ 52 = 2 ^ (- e) * 2 ^ (e + 52)) by (rewrite <- Z.pow_add_r by lia; f_equal; lia).
    rewrite H52, Z.mul_assoc in Ha. apply Z.mul_cancel_r in Ha.
    + rewrite Ha. apply Z.div_mul. apply Z.pow_nonzero; lia.
    + apply Z.pow_nonzero; lia.
Qed.

(** X10.  Counts stored as floats come back exactly: when the
    true-positive row holds the floats of integers between 0 and [2^53],
    the true positives of the entry are those integers, cut to the length
    of the entry. *)
Theorem make_pr_entry_counts_round_trip (step : Z) (wall_time : float) (data_array : ndarray)
    (thresholds_in : list float) (entry : Entry) (tp : list float) (counts : list Z) :
  _make_pr_entry step wall_time data_array thresholds_in = Ok entry ->
  data_array !! TRUE_POSITIVES_INDEX = Some tp ->
  Forall2 (fun n x => float_of_int n = Ok x) counts tp ->
  Forall (fun n => 0 <= n <= 2 ^ 53) counts ->
  true_positives entry = take (length (true_positives entry)) counts.
Proof.
  intros Hentry Htp Hfloat Hrange.
  destruct (make_pr_entry_inv _ _ _ _ _ Hentry)
    as (r0 & r1 & r2 & r3 & r4 & r5 & rest & tps & fps & pos & k
        & -> & Htps & Hfps & Hpos & Hk & Htns & Hfns & Heq).
  cbn in Htp. injection Htp as <-.
  assert (Hsame : tps = counts).
  { apply list_comp_Forall2 in Htps. apply list_eq. intros i.
    destruct (counts !! i) as [n|] eqn:Hn.
    - destruct (Forall2_lookup_l _ _ _ _ _ Hfloat Hn) as (x & Hx & Hnx).
      destruct (Forall2_lookup_l _ _ _ _ _ Htps Hx) as (z & Hz & Hxz).
      rewrite Hz. f_equal.
      destruct (int_of_float_of_int n) as (x' & Hx' & Hint).
      { rewrite Forall_forall in Hrange. apply Hrange. by apply list_elem_of_lookup_2 in Hn. }
      congruence.
    - apply lookup_ge_None in Hn. apply lookup_ge_None.
      apply Forall2_length in Hfloat, Htps. lia. }
  rewrite Hsame in Heq. rewrite Heq. cbn [true_positives]. by rewrite take_length_take.
Qed.
End WithPlatform.

Import Samples MoreSamples.

Lemma make_pr_entry_retrim_witness :
  @_make_pr_entry x86_64 7 fone example_tensor example_thresholds = Ok example_entry
  /\ @_make_pr_entry x86_64 7 fone (take 2 <$> example_tensor) (take 2 example_thresholds)
     = Ok example_entry.
Proof.
  split; [reflexivity|].
  apply (@make_pr_entry_retrim x86_64 7 fone example_tensor example_thresholds example_entry).
  reflexivity.
Defined.

Lemma make_pr_entry_keeps_nonzero_witness :
  @_make_pr_entry x86_64 7 fone example_tensor example_thresholds = Ok example_entry
  /\ @positives x86_64 example_tensor = Ok [7; 4; 0]
  /\ [7; 4; 0] !! 1%nat = Some 4 /\ 4 <> 0
  /\ (1 < length (true_positives example_entry))%nat
  /\ (1 < length (false_positives example_entry))%nat.
Proof.
  split; [reflexivity|]. split; [reflexivity|]. split; [reflexivity|]. split; [lia|].
  apply (@make_pr_entry_keeps_nonzero x86_64 7 fone example_tensor example_thresholds
           example_entry [7; 4; 0] 1%nat 4 eq_refl eq_refl eq_refl).
  lia.
Defined.

Lemma make_pr_entry_rejects_bad_positives_witness :
  tensor_with_nan_count !! TRUE_POSITIVES_INDEX = Some [of_Z 5; of_Z 3; nan]
  /\ tensor_with_nan_count !! FALSE_POSITIVES_INDEX = Some [of_Z 2; of_Z 1; of_Z 0]
  /\ forallb is_finite [of_Z 5; of_Z 3; nan] && forallb is_finite [of_Z 2; of_Z 1; of_Z 0] = false
  /\ exists e, @_make_pr_entry x86_64 7 fone tensor_with_nan_count example_thresholds = Raise e
               /\ (e = ValueError "cannot convert float NaN to integer" \/ e = OverflowError).
Proof.
  split; [reflexivity|]. split; [reflexivity|]. split; [reflexivity|].
  apply (@make_pr_entry_rejects_bad_positives x86_64 7 fone tensor_with_nan_count
           example_thresholds _ _ eq_refl eq_refl eq_refl).
Defined.

Lemma make_pr_entry_ignores_trimmed_negatives_witness :
  has_shape tensor_with_bad_tail 3 = true
  /\ forallb (forallb is_finite) (take 2 tensor_with_bad_tail) = true
  /\ @positives x86_64 tensor_with_bad_tail = Ok [7; 4; 0]
  /\ trim_end_index [7; 4; 0] = Ok (Z.of_nat 2)
  /\ tensor_with_bad_tail !! TRUE_NEGATIVES_INDEX = Some [of_Z 0; of_Z 1; nan]
  /\ tensor_with_bad_tail !! FALSE_NEGATIVES_INDEX = Some [of_Z 0; of_Z 0; infinity]
  /\ forallb is_finite (take 2 [of_Z 0; of_Z 1; nan]) = true
  /\ forallb is_finite (take 2 [of_Z 0; of_Z 0; infinity]) = true
  /\ exists entry,
       @_make_pr_entry x86_64 7 fone tensor_with_bad_tail example_thresholds = Ok entry.
Proof.
  repeat (split; [reflexivity|]).
  apply (@make_pr_entry_ignores_trimmed_negatives x86_64 7 fone tensor_with_bad_tail
           example_thresholds 3 [7; 4; 0] 2 _ _
           eq_refl eq_refl eq_refl eq_refl eq_refl eq_refl eq_refl eq_refl).
Defined.

Lemma make_pr_entry_missing_rows_witness :
  (length tensor_of_five_rows < 6)%nat
  /\ finite_counts tensor_of_five_rows = true
  /\ @_make_pr_entry x86_64 7 fone tensor_of_five_rows example_thresholds = Raise IndexError.
Proof.
  assert (Hlen : (length tensor_of_five_rows < 6)%nat) by (cbn; lia).
  split; [exact Hlen|]. split; [reflexivity|].
  apply (@make_pr_entry_missing_rows x86_64 7 fone tensor_of_five_rows example_thresholds
           Hlen eq_refl).
Defined.

Lemma make_pr_entry_width_zero_witness :
  has_shape empty_tensor 0 = true
  /\ length (true_positives
               {| wall_time := fone; step := 7; precision := []; recall := [];
                  true_positives := []; false_positives := [];
                  true_negatives := []; false_negatives := []; thresholds := [] |}) = 0%nat
  /\ @_make_pr_entry x86_64 7 fone empty_tensor example_thresholds
     = Ok {| wall_time := fone; step := 7; precision := []; recall := [];
             true_positives := []; false_positives := [];
             true_negatives := []; false_negatives := []; thresholds := [] |}.
Proof.
  split; [reflexivity|]. split; [reflexivity|].
  apply (@make_pr_entry_width_zero x86_64 7 fone empty_tensor example_thresholds eq_refl).
Defined.

Lemma make_pr_entry_thresholds_witness :
  @_make_pr_entry x86_64 7 fone example_tensor [decimal 1 2] = Ok example_entry_one_threshold
  /\ (length [decimal 1 2] <= length (true_positives example_entry_one_threshold))%nat
  /\ thresholds example_entry_one_threshold = [decimal 1 2].
Proof.
  assert (Hlen : (length [decimal 1 2] <= length (true_positives example_entry_one_threshold))%nat)
    by (cbn; lia).
  split; [reflexivity|]. split; [exact Hlen|].
  exact (proj2 (@make_pr_entry_thresholds x86_64 7 fone example_tensor [decimal 1 2]
                  example_entry_one_threshold eq_refl) Hlen).
Defined.

Lemma make_pr_entry_counts_round_trip_witness :
  @_make_pr_entry x86_64 7 fone example_tensor example_thresholds = Ok example_entry
  /\ example_tensor !! TRUE_POSITIVES_INDEX = Some [of_Z 5; of_Z 3; of_Z 0]
  /\ Forall2 (fun n x => float_of_int n = Ok x) [5; 3; 0] [of_Z 5; of_Z 3; of_Z 0]
  /\ Forall (fun n => 0 <= n <= 2 ^ 53) [5; 3; 0]
  /\ true_positives example_entry = take 2 [5; 3; 0].
Proof.
  assert (Hfloat : Forall2 (fun n x => float_of_int n = Ok x) [5; 3; 0]
                     [of_Z 5; of_Z 3; of_Z 0]) by (repeat constructor).
  assert (Hrange : Forall (fun n => 0 <= n <= 2 ^ 53) [5; 3; 0])
    by (repeat (apply List.Forall_cons; [cbv beta; lia|]); apply List.Forall_nil).
  split; [reflexivity|]. split; [reflexivity|]. split; [exact Hfloat|]. split; [exact Hrange|].
  apply (@make_pr_entry_counts_round_trip x86_64 7 fone example_tensor example_thresholds
           example_entry _ [5; 3; 0] eq_refl eq_refl Hfloat Hrange).
Defined.

End EntryEdges.

(** ** Further properties of the aggregation and of its route *)

Module AggregatorEdges.
Import EntryFacts AggregatorFacts.

Section WithStore.
Context `{Platform, Host, !Multiplexer}.

Lemma run_entries_inv (run tag : string) (es : list Entry) :
  run_entries run tag = Ok es ->
  exists events md data ths,
    Tensors run tag = Ok events
    /\ SummaryMetadata run tag = Ok md
    /\ parse_plugin_metadata (plugin_data_content md) = Ok data
    /\ _compute_thresholds (num_thresholds data) = Ok ths
    /\ list_comp (fun e => _process_tensor_event e ths) events = Ok es.
Proof.
  unfold run_entries. intros Hes.
  apply bind_ok_inv in Hes as (events & Hev & Hes).
  apply bind_ok_inv in Hes as (md & Hmd & Hes).
  apply bind_ok_inv in Hes as (data & Hdata & Hes).
  apply bind_ok_inv in Hes as (ths & Hths & Hes).
  exists events, md, data, ths. repeat split; try done.
  destruct (Tensors run tag) as [evs|e]; [done|]. destruct e; discriminate.
Qed.

Lemma process_tensor_event_inv (event : TensorEvent) (ths : list float) (e : Entry) :
  _process_tensor_event event ths = Ok e ->
  exists t, make_ndarray (tensor_proto event) = Ok t
            /\ _make_pr_entry (event_step event) (event_wall_time event) t ths = Ok e.
Proof. unfold _process_tensor_event. intros He. by apply bind_ok_inv in He. Qed.

Lemma pr_curves_loop_runs_ok (runs : list string) (tag : string)
    (s m : gmap string (list Entry)) :
  for_each runs
    (fun run response_mapping =>
       entries ← run_entries run tag; mret (<[run := entries]> response_mapping)) s = Ok m ->
  forall run, run ∈ runs -> exists es, run_entries run tag = Ok es.
Proof.
  revert s. induction runs as [|x xs IH]; intros s Hm run Hrun; [by apply elem_of_nil in Hrun|].
  apply for_each_cons_ok in Hm as (s' & Hx & Hrest).
  apply bind_ok_inv in Hx as (es & Hes & _).
  apply elem_of_cons in Hrun as [->|Hrun]; [eauto|by apply (IH _ Hrest)].
Qed.

Lemma pr_curves_impl_inv (runs : list string) (tag : string) (m : gmap string (list Entry)) :
  pr_curves_impl runs tag = Ok m ->
  (forall run, run ∈ runs -> exists es, run_entries run tag = Ok es /\ m !! run = Some es)
  /\ (forall run, run ∉ runs -> m !! run = None).
Proof.
  intros Hm. pose proof (pr_curves_loop_runs_ok runs tag ∅ m Hm) as Hall.
  destruct (pr_curves_loop_ok runs tag ∅ Hall) as (m' & Hm' & Hin & Hout).
  unfold pr_curves_impl in Hm. rewrite Hm in Hm'. injection Hm' as <-.
  split.
  - intros run Hrun. destruct (Hall run Hrun) as [es Hes]. eauto.
  - intros run Hrun. rewrite Hout by done. apply lookup_empty.
Qed.

(** X11.  A returned mapping holds, for each run, one entry per tensor
    event of the store, in the order of the events; the entry of an event
    carries its step and its wall time, and its thresholds are the first
    ones of the thresholds computed for the run. *)
Theorem pr_curves_impl_entries_follow_events (runs : list string) (tag run : string)
    (mapping : gmap string (list Entry)) (entries : list Entry) :
  pr_curves_impl runs tag = Ok mapping -> mapping !! run = Some entries ->
  exists (events : list TensorEvent) (md : SummaryMetadata_t) (data : PrCurvePluginData)
         (ths : list float),
    Tensors run tag = Ok events
    /\ SummaryMetadata run tag = Ok md
    /\ parse_plugin_metadata (plugin_data_content md) = Ok data
    /\ _compute_thresholds (num_thresholds data) = Ok ths
    /\ length entries = length events
    /\ (forall (i : nat) (event : TensorEvent) (entry : Entry),
          events !! i = Some event -> entries !! i = Some entry ->
          step entry = event_step event
          /\ wall_time entry = event_wall_time event
          /\ thresholds entry = take (length (true_positives entry)) ths).
Proof.
  intros Hm Hrun. destruct (pr_curves_impl_inv _ _ _ Hm) as [Hin Hout].
  assert (Hmem : run ∈ runs).
  { destruct (decide (run ∈ runs)) as [|Hnot]; [done|]. rewrite Hout in Hrun by done. done. }
  destruct (Hin run Hmem) as (es & Hes & Hlook). rewrite Hrun in Hlook. injection Hlook as <-.
  destruct (run_entries_inv _ _ _ Hes) as (events & md & data & ths & Hev & Hmd & Hdata & Hths & Hlist).
  exists events, md, data, ths. repeat (split; [done|]).
  split; [by apply list_comp_length in Hlist|].
  intros i event entry Hevent Hentry.
  destruct (list_comp_lookup _ _ _ _ _ Hlist Hentry) as (event' & Hevent' & Hproc).
  rewrite Hevent in Hevent'. injection Hevent' as <-.
  apply process_tensor_event_inv in Hproc as (t & _ & Hmake).
  destruct (make_pr_entry_inv _ _ _ _ _ Hmake)
    as (r0 & r1 & r2 & r3 & r4 & r5 & rest & tps & fps & pos & k
        & -> & Htps & Hfps & Hpos & Hk & Htns & Hfns & Heq).
  rewrite positives_rows in Hpos. injection Hpos as <-.
  assert (Hlen : length (true_positives entry) = k).
  { rewrite Heq. cbn [true_positives]. by apply (EntryEdges.end_index_length r0 r1). }
  rewrite Hlen. by rewrite Heq.
Qed.

(** X12.  A mapping is returned only when every requested run has tensor
    events, and its keys are then exactly the requested runs. *)
Theorem pr_curves_impl_needs_all_runs (runs : list string) (tag : string)
    (mapping : gmap string (list Entry)) :
  pr_curves_impl runs tag = Ok mapping ->
  dom mapping = list_to_set runs
  /\ forall run, run ∈ runs -> exists events, Tensors run tag = Ok events.
Proof.
  intros Hm. destruct (pr_curves_impl_inv _ _ _ Hm) as [Hin Hout]. split.
  - apply set_eq. intros run. rewrite elem_of_dom, elem_of_list_to_set. split.
    + intros [es Hes]. destruct (decide (run ∈ runs)) as [|Hnot]; [done|].
      rewrite Hout in Hes by done. done.
    + intros Hrun. destruct (Hin run Hrun) as (es & _ & ->). eauto.
  - intros run Hrun. destruct (Hin run Hrun) as (es & Hes & _).
    destruct (run_entries_inv _ _ _ Hes) as (events & _ & _ & _ & Hev & _). eauto.
Qed.

Lemma pr_curves_impl_first_raises (run : string) (rest : list string) (tag : string) (e : exn) :
  run_entries run tag = Raise e -> pr_curves_impl (run :: rest) tag = Raise e.
Proof. intros He. unfold pr_curves_impl. cbn [for_each]. by rewrite He. Qed.
End WithStore.

Section WithService.
Context `{Platform, Host, !Multiplexer, HttpUtil}.

Lemma pr_curves_route_impl (request : Request) (tag : string) :
  getlist request "run" <> [] -> get request "tag" = Some tag -> tag <> EmptyString ->
  pr_curves_route request
  = match pr_curves_impl (getlist request "run") tag with
    | Ok mapping => Ok (Respond request (Json mapping) (PyStr "application/json") None)
    | Raise (ValueError msg) =>
        Ok (Respond request (Text msg) (PyStr "text/plain") (Some 400))
    | Raise e => Raise e
    end.
Proof.
  intros Hruns Htag Hne. unfold pr_curves_route.
  rewrite bool_decide_eq_false_2 by done. rewrite Htag.
  destruct tag as [|c tag]; [done|]. reflexivity.
Qed.

(** X13.  Only the [KeyError] of [Tensors] is turned into the "no data"
    error.  When the tensors of the first run exist and its summary
    metadata is missing, [pr_curves_impl] raises [KeyError], which the
    route does not catch: no response is built. *)
Theorem pr_curves_route_metadata_missing (request : Request) (run tag : string)
    (rest : list string) (events : list TensorEvent) :
  getlist request "run" = run :: rest ->
  get request "tag" = Some tag -> tag <> EmptyString ->
  Tensors run tag = Ok events ->
  SummaryMetadata run tag = Raise KeyError ->
  pr_curves_impl (run :: rest) tag = Raise KeyError
  /\ pr_curves_route request = Raise KeyError.
Proof.
  intros Hruns Htag Hne Hev Hmd.
  assert (Himpl : pr_curves_impl (run :: rest) tag = Raise KeyError).
  { apply pr_curves_impl_first_raises. unfold run_entries. rewrite Hev, Hmd. reflexivity. }
  split; [exact Himpl|].
  rewrite (pr_curves_route_impl request tag) by (done || by rewrite Hruns).
  by rewrite Hruns, Himpl.
Qed.

(** X14.  The route answers a request for a run without data by the
    status 400 and the plain-text "no data" message of the first such
    run, when the requested runs that have tensor events are processed
    without error. *)
Theorem pr_curves_route_no_data_400 (request : Request) (tag : string) :
  get request "tag" = Some tag -> tag <> EmptyString ->
  (exists run, run ∈ getlist request "run" /\ Tensors run tag = Raise KeyError) ->
  (forall r, r ∈ getlist request "run" -> Tensors r tag <> Raise KeyError ->
             exists es, run_entries r tag = Ok es) ->
  exists run,
    run ∈ getlist request "run" /\ Tensors run tag = Raise KeyError
    /\ pr_curves_route request
       = Ok (Respond request (Text (no_curves_message run tag)) (PyStr "text/plain") (Some 400)).
Proof.
  intros Htag Hne Hex Hgood. set (runs := getlist request "run") in *.
  destruct (first_run_without_data runs tag Hex) as (pre & post & run & Hruns & Hrun & Hpre).
  assert (Hmem : run ∈ runs) by (rewrite Hruns, elem_of_app; right; left).
  exists run. split; [done|]. split; [done|].
  assert (Himpl : pr_curves_impl runs tag = Raise (ValueError (no_curves_message run tag))).
  { rewrite Hruns. unfold pr_curves_impl. apply for_each_app_raise.
    - intros s'. by rewrite (run_entries_no_data run tag Hrun).
    - destruct (pr_curves_loop_ok pre tag ∅) as (m & Hm & _); [|eauto].
      intros r Hr. apply Hgood; [|by apply Hpre]. rewrite Hruns, elem_of_app. by left. }
  rewrite (pr_curves_route_impl request tag); [|intros Hnil|done|done].
  - fold runs. by rewrite Himpl.
  - fold runs in Hnil. rewrite Hnil in Hmem. by apply elem_of_nil in Hmem.
Qed.

(** X15.  When every requested run yields its entries the route answers
    with the JSON mapping, left to the default status, whose keys are the
    requested runs. *)
Theorem pr_curves_route_success (request : Request) (tag : string) :
  getlist request "run" <> [] -> get request "tag" = Some tag -> tag <> EmptyString ->
  (forall run, run ∈ getlist request "run" -> exists es, run_entries run tag = Ok es) ->
  exists mapping : gmap string (list Entry),
    pr_curves_route request
    = Ok (Respond request (Json mapping) (PyStr "application/json") None)
    /\ dom mapping = list_to_set (getlist request "run")
    /\ (forall run es, run ∈ getlist request "run" -> run_entries run tag = Ok es ->
          mapping !! run = Some es).
Proof.
  intros Hruns Htag Hne Hall.
  destruct (pr_curves_loop_ok (getlist request "run") tag ∅ Hall) as (m & Hm & Hin & Hout).
  exists m. split; [|split; [|exact Hin]].
  - rewrite (pr_curves_route_impl request tag) by done. unfold pr_curves_impl. by rewrite Hm.
  - apply set_eq. intros run. rewrite elem_of_dom, elem_of_list_to_set. split.
    + intros [es Hes]. destruct (decide (run ∈ getlist request "run")) as [|Hnot]; [done|].
      rewrite Hout in Hes by done. by rewrite lookup_empty in Hes.
    + intros Hrun. destruct (Hall run Hrun) as [es Hes]. rewrite (Hin run es); eauto.
Qed.

(** X16.  A count that is not a number is answered, not raised: when the
    true-positive row of the first tensor of the first run holds a NaN or
    an infinity, the route answers 400 with the message of the failed
    conversion of a NaN, or lets the [OverflowError] of an infinity
    through. *)
Theorem pr_curves_route_bad_count (request : Request) (run tag : string) (rest : list string)
    (event : TensorEvent) (events : list TensorEvent) (md : SummaryMetadata_t)
    (data : PrCurvePluginData) (ths : list float) (t : ndarray) (tp : list float) :
  getlist request "run" = run :: rest ->
  get request "tag" = Some tag -> tag <> EmptyString ->
  Tensors run tag = Ok (event :: events) ->
  SummaryMetadata run tag = Ok md ->
  parse_plugin_metadata (plugin_data_content md) = Ok data ->
  _compute_thresholds (num_thresholds data) = Ok ths ->
  make_ndarray (tensor_proto event) = Ok t ->
  t !! TRUE_POSITIVES_INDEX = Some tp ->
  forallb is_finite tp = false ->
  pr_curves_route request
  = Ok (Respond request (Text "cannot convert float NaN to integer")
          (PyStr "text/plain") (Some 400))
  \/ pr_curves_route request = Raise OverflowError.
Proof.
  intros Hruns Htag Hne Hev Hmd Hdata Hths Ht Htp Hbad.
  destruct (EntryEdges.list_comp_int_of_float_raise tp Hbad) as (e & Hraise & He).
  assert (Himpl : pr_curves_impl (run :: rest) tag = Raise e).
  { apply pr_curves_impl_first_raises. unfold run_entries.
    rewrite Hev, Hmd. py_simpl. rewrite Hdata. py_simpl. rewrite Hths. py_simpl.
    cbn [list_comp]. unfold _process_tensor_event at 1. rewrite Ht. py_simpl.
    unfold _make_pr_entry. rewrite (getitem_lookup _ _ _ Htp). py_simpl.
    rewrite Hraise. reflexivity. }
  rewrite (pr_curves_route_impl request tag) by (done || by rewrite Hruns).
  rewrite Hruns, Himpl. destruct He as [-> | ->]; [by left|by right].
Qed.

(** X17.  A request that names runs and no tag, or an empty tag, is
    answered like one without runs: [Respond] is called with the message,
    [400] where the content type is expected, and no status code. *)
Theorem pr_curves_route_no_tag (request : Request) :
  getlist request "run" <> [] ->
  get request "tag" = None \/ get request "tag" = Some EmptyString ->
  pr_curves_route request
  = Ok (Respond request (Text "No tag provided when fetching PR curve data")
          (PyInt 400) None).
Proof.
  intros Hruns Htag. unfold pr_curves_route.
  rewrite bool_decide_eq_false_2 by done. by destruct Htag as [-> | ->].
Qed.
End WithService.

Import Samples MoreSamples.

Lemma run_entries_A : exists es, @run_entries x86_64 _ store "A" "t" = Ok es.
Proof. eexists. reflexivity. Qed.

Lemma all_runs_A (runs : list string) :
  Forall (fun run => run = "A"%string) runs ->
  forall run, run ∈ runs -> exists es, @run_entries x86_64 _ store run "t" = Ok es.
Proof.
  intros Hall run Hrun. rewrite Forall_forall in Hall. rewrite (Hall run Hrun).
  apply run_entries_A.
Qed.

Lemma pr_curves_impl_entries_follow_events_witness :
  exists (mapping : gmap string (list Entry)) (entries : list Entry),
    @pr_curves_impl x86_64 _ store ["A"%string] "t" = Ok mapping
    /\ mapping !! "A"%string = Some entries
    /\ exists events, @Tensors _ store "A" "t" = Ok events
                      /\ length entries = length events.
Proof.
  destruct (@pr_curves_loop_ok x86_64 _ store ["A"%string] "t" ∅) as (m & Hm & Hin & _).
  { apply all_runs_A. by repeat constructor. }
  destruct run_entries_A as [es Hes].
  assert (Hlook : m !! "A"%string = Some es) by (apply Hin; [by left|done]).
  exists m, es. split; [exact Hm|]. split; [exact Hlook|].
  destruct (@pr_curves_impl_entries_follow_events x86_64 _ store ["A"%string] "t" "A" m es
              Hm Hlook) as (events & _ & _ & _ & Hev & _ & _ & _ & Hlen & _).
  eauto.
Defined.

Lemma pr_curves_impl_needs_all_runs_witness :
  exists mapping : gmap string (list Entry),
    @pr_curves_impl x86_64 _ store ["A"%string] "t" = Ok mapping
    /\ dom mapping = list_to_set ["A"%string].
Proof.
  destruct (@pr_curves_loop_ok x86_64 _ store ["A"%string] "t" ∅) as (m & Hm & _).
  { apply all_runs_A. by repeat constructor. }
  exists m. split; [exact Hm|].
  apply (@pr_curves_impl_needs_all_runs x86_64 _ store ["A"%string] "t" m Hm).
Defined.

Lemma pr_curves_route_metadata_missing_witness :
  getlist request_A "run" = ["A"%string]
  /\ get request_A "tag" = Some "t"%string
  /\ "t"%string <> EmptyString
  /\ @Tensors _ store_without_metadata "A" "t" = Ok [example_event]
  /\ @SummaryMetadata _ store_without_metadata "A" "t" = Raise KeyError
  /\ @pr_curves_route x86_64 _ store_without_metadata http request_A = Raise KeyError.
Proof.
  assert (Hne : "t"%string <> EmptyString) by discriminate.
  repeat (split; [reflexivity || exact Hne|]).
  apply (@pr_curves_route_metadata_missing x86_64 _ store_without_metadata http request_A
           "A" "t" [] [example_event] eq_refl eq_refl Hne eq_refl eq_refl).
Defined.

Lemma pr_curves_route_no_data_400_witness :
  get request_A_B "tag" = Some "t"%string
  /\ "t"%string <> EmptyString
  /\ (exists run, run ∈ getlist request_A_B "run"
                  /\ @Tensors _ store run "t" = Raise KeyError)
  /\ (forall r, r ∈ getlist request_A_B "run" -> @Tensors _ store r "t" <> Raise KeyError ->
                exists es, @run_entries x86_64 _ store r "t" = Ok es)
  /\ exists run,
       @pr_curves_route x86_64 _ store http request_A_B
       = Ok (request_A_B, Text (@no_curves_message host run "t"), PyStr "text/plain", Some 400).
Proof.
  assert (Hne : "t"%string <> EmptyString) by discriminate.
  assert (Hex : exists run, run ∈ getlist request_A_B "run"
                            /\ @Tensors _ store run "t" = Raise KeyError).
  { exists "B"%string. split; [right; left|reflexivity]. }
  assert (Hgood : forall r, r ∈ getlist request_A_B "run" ->
                    @Tensors _ store r "t" <> Raise KeyError ->
                    exists es, @run_entries x86_64 _ store r "t" = Ok es).
  { intros r Hr Hdata. apply elem_of_cons in Hr as [->|Hr]; [apply run_entries_A|].
    apply list_elem_of_singleton in Hr as ->. by destruct Hdata. }
  split; [reflexivity|]. split; [exact Hne|]. split; [exact Hex|]. split; [exact Hgood|].
  destruct (@pr_curves_route_no_data_400 x86_64 _ store http request_A_B "t"
              eq_refl Hne Hex Hgood) as (run & _ & _ & Hroute).
  exists run. exact Hroute.
Defined.

Lemma pr_curves_route_success_witness :
  getlist request_A_A "run" <> []
  /\ get request_A_A "tag" = Some "t"%string
  /\ "t"%string <> EmptyString
  /\ (forall run, run ∈ getlist request_A_A "run" ->
                  exists es, @run_entries x86_64 _ store run "t" = Ok es)
  /\ exists mapping : gmap string (list Entry),
       @pr_curves_route x86_64 _ store http request_A_A
       = Ok (request_A_A, Json mapping, PyStr "application/json", None)
       /\ dom mapping = list_to_set ["A"%string; "A"%string].
Proof.
  assert (Hruns : getlist request_A_A "run" <> []) by discriminate.
  assert (Hne : "t"%string <> EmptyString) by discriminate.
  assert (Hall : forall run, run ∈ getlist request_A_A "run" ->
                   exists es, @run_entries x86_64 _ store run "t" = Ok es).
  { apply all_runs_A. by repeat constructor. }
  split; [exact Hruns|]. split; [reflexivity|]. split; [exact Hne|]. split; [exact Hall|].
  destruct (@pr_curves_route_success x86_64 _ store http request_A_A "t"
              Hruns eq_refl Hne Hall) as (m & Hroute & Hdom & _).
  exists m. split; [exact Hroute|exact Hdom].
Defined.

Lemma pr_curves_route_bad_count_witness :
  @Tensors _ store_with_nan_count "A" "t"
  = Ok [@Build_TensorEvent host 7 (of_Z 1) tensor_with_nan_count]
  /\ tensor_with_nan_count !! TRUE_POSITIVES_INDEX = Some [of_Z 5; of_Z 3; nan]
  /\ forallb is_finite [of_Z 5; of_Z 3; nan] = false
  /\ (@pr_curves_route x86_64 _ store_with_nan_count http request_A
      = Ok (request_A, Text "cannot convert float NaN to integer", PyStr "text/plain", Some 400)
      \/ @pr_curves_route x86_64 _ store_with_nan_count http request_A = Raise OverflowError).
Proof.
  assert (Hne : "t"%string <> EmptyString) by discriminate.
  split; [reflexivity|]. split; [reflexivity|]. split; [reflexivity|].
  apply (@pr_curves_route_bad_count x86_64 _ store_with_nan_count http request_A "A" "t" []
           (@Build_TensorEvent host 7 (of_Z 1) tensor_with_nan_count) [] example_metadata
           {| version := 0; num_thresholds := 3 |}
           [decimal 1 3; decimal 2 3; fone] tensor_with_nan_count [of_Z 5; of_Z 3; nan]
           eq_refl eq_refl Hne eq_refl eq_refl eq_refl eq_refl eq_refl eq_refl eq_refl).
Defined.

Lemma pr_curves_route_no_tag_witness :
  getlist request_without_tag "run" <> []
  /\ get request_without_tag "tag" = None
  /\ @pr_curves_route x86_64 _ store http request_without_tag
     = Ok (request_without_tag, Text "No tag provided when fetching PR curve data",
           PyInt 400, None).
Proof.
  assert (Hruns : getlist request_without_tag "run" <> []) by discriminate.
  split; [exact Hruns|]. split; [reflexivity|].
  apply (@pr_curves_route_no_tag x86_64 _ store http request_without_tag Hruns).
  by left.
Defined.

End AggregatorEdges.

(** ** Further properties of the tag catalogue *)

Module TagEdges.
Import AggregatorFacts TagFacts.

Section WithStore.
Context {host : Host} {multiplexer : Multiplexer}.

Lemma nonempty_has_lookup (tc : gmap string string) :
  negb (size tc =? 0)%nat = true <-> exists tag content, tc !! tag = Some content.
Proof.
  rewrite negb_true_iff, Nat.eqb_neq. apply map_size_ne_0_lookup.
Qed.

Lemma is_active_active :
  (exists run tag, has_tag (PluginRunToTagToContent PLUGIN_NAME) run tag) ->
  is_active (Some multiplexer) = true.
Proof.
  intros (run & tag & tc & c & Hrun & Htag). unfold is_active. rewrite existsb_exists.
  exists tc. split.
  - apply list_elem_of_In, list_elem_of_fmap. exists (run, tc).
    split; [done|]. by apply elem_of_map_to_list.
  - apply nonempty_has_lookup. eauto.
Qed.

(** X18.  The plugin is active exactly when some run carries a tag of
    the plugin; without a multiplexer it is not. *)
Theorem is_active_iff :
  is_active None = false
  /\ (is_active (Some multiplexer) = true
      <-> exists run tag, has_tag (PluginRunToTagToContent PLUGIN_NAME) run tag).
Proof.
  split; [reflexivity|]. unfold is_active. rewrite existsb_exists. split.
  - intros (tc & Hin & Hne). apply list_elem_of_In, list_elem_of_fmap in Hin as ([run tc'] & -> & Hin).
    apply elem_of_map_to_list in Hin. apply nonempty_has_lookup in Hne as (tag & c & Hc).
    exists run, tag, tc', c. done.
  - intros Hex. apply is_active_active in Hex. unfold is_active in Hex.
    by rewrite existsb_exists in Hex.
Qed.

(** X19.  When the plugin is not active [tags_impl] returns, and maps
    each run of the store, and nothing else, to the empty mapping. *)
Theorem tags_impl_inactive :
  is_active (Some multiplexer) = false ->
  exists result : gmap string (gmap string TagInfo),
    tags_impl = Ok result
    /\ forall run, result !! run = if decide (run ∈ Runs) then Some ∅ else None.
Proof.
  intros Hinactive.
  assert (Hnotag : forall run tag, ~ listed (map_to_list (PluginRunToTagToContent PLUGIN_NAME))
                                     run tag).
  { intros run tag Hl. apply listed_map_to_list in Hl.
    assert (Hact : is_active (Some multiplexer) = true) by (apply is_active_active; eauto).
    congruence. }
  destruct (set_tags_loop_total (map_to_list (PluginRunToTagToContent PLUGIN_NAME))
              (empty_tags Runs)) as [result Hres].
  { intros run tag Hl. by destruct (Hnotag run tag). }
  exists result. split; [exact Hres|]. intros run.
  destruct (set_tags_loop_inv _ _ _ Hres) as (_ & Hnone & Hrun).
  destruct (decide (run ∈ Runs)) as [Hr|Hr].
  - destruct (Hrun run ∅) as (tags & -> & Hlook); [by rewrite empty_tags_lookup, decide_True|].
    f_equal. apply map_empty. intros tag. rewrite Hlook.
    rewrite decide_False by apply Hnotag. apply lookup_empty.
  - apply Hnone. by rewrite empty_tags_lookup, decide_False.
Qed.

(** X20.  [tags_impl] returns only for a consistent store: a tag listed
    for a run that [Runs] does not know, or a listed tag without summary
    metadata, makes it raise. *)
Theorem tags_impl_inconsistent_store (run tag : string) :
  has_tag (PluginRunToTagToContent PLUGIN_NAME) run tag ->
  run ∉ Runs \/ (exists e, SummaryMetadata run tag = Raise e) ->
  exists e, tags_impl = Raise e.
Proof.
  intros Htag Hbad. destruct tags_impl as [result|e] eqn:Hres; [exfalso|eauto].
  unfold tags_impl in Hres. destruct (set_tags_loop_inv _ _ _ Hres) as (Hsome & _ & _).
  apply listed_map_to_list in Htag. destruct (Hsome _ _ Htag) as [[tags Hr0] Hinfo].
  destruct Hbad as [Hrun|[e He]].
  - rewrite empty_tags_lookup, decide_False in Hr0 by done. done.
  - apply tag_info_is_Some in Hinfo as [md Hmd]. congruence.
Qed.
End WithStore.

Import Samples MoreSamples.

Lemma tags_impl_inactive_witness :
  @is_active host (Some store_without_tags) = false
  /\ exists result : gmap string (gmap string TagInfo),
       @tags_impl host store_without_tags = Ok result
       /\ result !! "A"%string = Some ∅
       /\ result !! "C"%string = None.
Proof.
  split; [reflexivity|].
  destruct (@tags_impl_inactive host store_without_tags eq_refl) as (result & Hres & Hlook).
  exists result. split; [exact Hres|]. split.
  - rewrite Hlook. apply decide_True. left.
  - rewrite Hlook. apply decide_False. intros Hin.
    apply elem_of_cons in Hin as [|Hin]; [discriminate|].
    apply list_elem_of_singleton in Hin. discriminate.
Defined.

Lemma tags_impl_inconsistent_store_witness :
  has_tag (@PluginRunToTagToContent host store_with_unknown_run (@PLUGIN_NAME host)) "C" "t"
  /\ ("C"%string ∉ @Runs host store_with_unknown_run)
  /\ exists e, @tags_impl host store_with_unknown_run = Raise e.
Proof.
  assert (Htag : has_tag (@PluginRunToTagToContent host store_with_unknown_run
                            (@PLUGIN_NAME host)) "C" "t").
  { exists {[ "t"%string := "content"%string ]}, "content"%string.
    split; apply lookup_singleton_eq. }
  assert (Hrun : "C"%string ∉ (@Runs host store_with_unknown_run)).
  { intros Hin. apply elem_of_cons in Hin as [|Hin]; [discriminate|].
    apply list_elem_of_singleton in Hin. discriminate. }
  split; [exact Htag|]. split; [exact Hrun|].
  apply (@tags_impl_inconsistent_store host store_with_unknown_run "C" "t" Htag).
  by left.
Defined.

End TagEdges.
